(** * myhdl [_fixbv.py]: the scaled-integer (fixed-point) value type

    A shallow embedding of [myhdl/_fixbv.py].  Python integers are [Z];
    an exception is an error result; a method that assigns to a field of
    [self] is a function from the instance before the call to the
    instance after it, paired with the outcome. *)

From Stdlib Require Import ZArith QArith Qpower Qabs Bool List String Lia.
From Equations Require Import Equations.
Import ListNotations.

Local Open Scope Z_scope.

(** ** Exceptions and results *)

(** The exception classes the module raises, itself or through the
    interpreter.  [RangeError] is the [ValueError] of [_handleBounds]
    ("fixbv: Value ... out of range"); [ValueError] is every other one. *)
Inductive exn : Type :=
| AssertionError
| AttributeError
| NotImplementedError
| OverflowError
| RangeError
| TypeError
| ValueError
| ZeroDivisionError.

Inductive result (A : Type) : Type :=
| Ok (a : A)
| Raise (e : exn).

Arguments Ok {A} a.
Arguments Raise {A} e.

Definition bind {A B : Type} (r : result A) (k : A -> result B) : result B :=
  match r with
  | Ok a => k a
  | Raise e => Raise e
  end.

Notation "x <- r ;; k" := (bind r (fun x => k))
  (at level 61, r at next level, right associativity).
Notation "' p <- r ;; k" := (bind r (fun x => let p := x in k))
  (at level 61, p pattern, r at next level, right associativity).

(** ** Grid alignment *)

(** A value together with the equation naming it, so that a branch on a
    test keeps the outcome of the test. *)
Definition inspect {A : Type} (a : A) : {b : A | a = b} := exist _ a eq_refl.

(** [alignvalues(a, b)]: both arguments are pairs (stored integer, shift).
    The [else] branch calls the function once more with the arguments
    swapped; the measure is 1 exactly when that branch is taken. *)
Equations? alignvalues (a b : Z * Z) : (Z * Z) * (Z * Z)
  by wf (if snd b <=? snd a then 0%nat else 1%nat) lt :=
alignvalues (a_val, a_shift) (b_val, b_shift) with inspect (b_shift <=? a_shift) => {
  | exist _ true _ :=
      let diff_shift := a_shift - b_shift in
      ((a_val * 2 ^ diff_shift, b_shift), (b_val, b_shift));
  | exist _ false _ :=
      let '(b', a') := alignvalues (b_val, b_shift) (a_val, a_shift) in
      (a', b') }.
Proof.
  cbn. rewrite e.
  assert ((a_shift <=? b_shift) = true) as -> by lia.
  lia.
Qed.

(** The real-world value of a pair: stored integer times two to the shift. *)
Definition realValue (p : Z * Z) : Q :=
  inject_Z (fst p) * Qpower (2 # 1) (snd p).

(** ** Double-precision primitives of the interpreter *)

(** [math.log] applied to an integer first rounds it to 53 significant
    bits, ties to even (the interpreter's integer-to-double conversion);
    the logarithm only ever sees the rounded value.  [int_to_double n]
    is that rounded value, for [n > 0]. *)
Definition int_to_double (n : Z) : Z :=
  let bits := Z.log2 n + 1 in
  if bits <=? 53 then n
  else
    let s := bits - 53 in
    let q := Z.shiftr n s in
    let r := Z.land n (Z.ones s) in
    let half := Z.shiftl 1 (s - 1) in
    let q' := if (half <? r) || ((r =? half) && Z.odd q) then q + 1 else q in
    Z.shiftl q' s.

(** What the module computes in double precision is left to the libm and
    the hardware; the development holds for every choice of it.
    - [ceil_log2 d] is [ceil(log(d, 2))] for the double [d] (given by its
      integer value) that [log] obtained from its integer argument;
    - [int_of_scaled si shift] is [int(si * 2**shift)] for [shift < 0],
      where [2**shift] is a float;
    - [quantize m e shift] is [int(floor(val * 2**(-shift) + 0.5))] for
      the float [val = m * 2**e];
    - [neg_power_exn si p] is the exception that ends
      [fixbv(si ** p, ...)] for [p < 0]: the power is evaluated in
      floating point and either raises there or yields a float, which
      [_cast] rejects. *)
Class FloatModel : Type := {
  ceil_log2 : Z -> Z;
  int_of_scaled : Z -> Z -> result Z;
  quantize : Z -> Z -> Z -> result Z;
  neg_power_exn : Z -> Z -> exn
}.

(** An idealised instance, exact on every input; used to run the model. *)
Definition exact_floats : FloatModel := {|
  ceil_log2 := Z.log2_up;
  int_of_scaled := fun si shift => Ok (Z.quot si (2 ^ (- shift)));
  quantize := fun m e shift =>
    Ok ((m * 2 ^ (Z.max 0 (e - shift)) * 2 + 2 ^ (Z.max 0 (shift - e)))
        / (2 ^ (Z.max 0 (shift - e)) * 2));
  neg_power_exn := fun si _ => if si =? 0 then ZeroDivisionError else TypeError
|}.

(** ** Bit-width estimator *)

Section Fixbv.

Context {FM : FloatModel}.

(** [calc_nr_bits(val)].  The local [a] is computed and never used. *)
Definition calc_nr_bits (val : Z) : Z :=
  if val =? 0 then 0
  else if val <? 0 then ceil_log2 (int_to_double (- val)) + 1
  else ceil_log2 (int_to_double (val + 1)) + 1.

(** ** The value type *)

(** The instance attributes set by [__init__]. *)
Record fixbv : Type := mkfixbv {
  _val : Z;
  _shift : Z;
  _min : option Z;
  _max : option Z;
  _init_asfloat : bool;
  _print_asfloat : bool;
  _vcd_asfloat : bool
}.

(** The values a caller can pass as [val], [min], [max] or as the other
    operand.  [PInt] stands for [int], [bool] and [intbv] (which the
    module treats alike, through [int()]); [PFloat m e] is the finite
    float [m * 2**e]; [PStr] is a string with what [int()] reads from
    it, if anything; [PObj] is an object [int()] rejects.  [None] as a
    value and signals wrapping a [fixbv] are not modelled. *)
Inductive pyval : Type :=
| PFixbv (f : fixbv)
| PInt (n : Z)
| PFloat (m e : Z)
| PStr (parsed : option Z)
| PObj.

(** The [asfloat] argument: one flag, or a sequence of three. *)
Inductive asfloat_arg : Type :=
| AFlag (b : bool)
| ATriple (b0 b1 b2 : bool).

(** Methods that assign to [self]: from the instance before to the
    instance after and the outcome. *)
Definition method (A : Type) : Type := fixbv -> fixbv * result A.

Definition getsi (self : fixbv) : Z := _val self.
Definition getshift (self : fixbv) : Z := _shift self.
Definition getfractionlength (self : fixbv) : Z := - getshift self.
Definition getminsi (self : fixbv) : option Z := _min self.
Definition getmaxsi (self : fixbv) : option Z := _max self.

Definition with_val (self : fixbv) (v : Z) : fixbv :=
  mkfixbv v (_shift self) (_min self) (_max self)
          (_init_asfloat self) (_print_asfloat self) (_vcd_asfloat self).

Definition with_min (self : fixbv) (m : option Z) : fixbv :=
  mkfixbv (_val self) (_shift self) m (_max self)
          (_init_asfloat self) (_print_asfloat self) (_vcd_asfloat self).

Definition with_max (self : fixbv) (m : option Z) : fixbv :=
  mkfixbv (_val self) (_shift self) (_min self) m
          (_init_asfloat self) (_print_asfloat self) (_vcd_asfloat self).

(** [__int__]: [int(self.si * 2**self.shift)]; the power is an integer
    for a non-negative shift and a float otherwise. *)
Definition __int__ (self : fixbv) : result Z :=
  if 0 <=? getshift self then Ok (getsi self * 2 ^ getshift self)
  else int_of_scaled (getsi self) (getshift self).

(** The builtin [int()] on an argument. *)
Definition py_int (v : pyval) : result Z :=
  match v with
  | PFixbv f => __int__ f
  | PInt n => Ok n
  | PFloat m e => Ok (if 0 <=? e then m * 2 ^ e else Z.quot m (2 ^ (- e)))
  | PStr (Some n) => Ok n
  | PStr None => Raise ValueError
  | PObj => Raise TypeError
  end.

(** [_cast(val)] on an argument that is not [None], reading
    [_init_asfloat] and [shift] of the instance under construction. *)
Definition cast_value (init_asfloat : bool) (shift : Z) (val : pyval)
  : result Z :=
  match val with
  | PFloat m e =>
      if init_asfloat then quantize m e shift else Raise TypeError
  | _ => py_int val
  end.

(** [_cast(val)]; the argument [None] is returned as it is. *)
Definition _cast (init_asfloat : bool) (shift : Z) (val : option pyval)
  : result (option Z) :=
  match val with
  | None => Ok None
  | Some v => n <- cast_value init_asfloat shift v ;; Ok (Some n)
  end.

(** [_handleBounds]. *)
Definition _handleBounds (self : fixbv) : result unit :=
  match getmaxsi self, getminsi self with
  | Some maxsi, Some minsi =>
      if (minsi >? getsi self) || (getsi self >=? maxsi)
      then Raise RangeError
      else Ok tt
  | _, _ => Ok tt
  end.

Definition is_none {A : Type} (o : option A) : bool :=
  match o with None => true | Some _ => false end.

(** [__init__(val, shift, min, max, asfloat)].  The comparison
    [self._min < self._max] with [_min] at [None] would be a [TypeError];
    the first assertion excludes it. *)
Definition __init__ (val : pyval) (shift : Z) (min max : option pyval)
           (asfloat : asfloat_arg) : result fixbv :=
  if negb ((is_none min && is_none max)
           || (negb (is_none min) && negb (is_none max)))
  then Raise AssertionError
  else
    let '(fi, fp, fv) :=
      match asfloat with
      | ATriple b0 b1 b2 => (b0, b1, b2)
      | AFlag b => (b, b, b)
      end in
    self <-
      match val with
      | PFixbv v => Ok (mkfixbv (_val v) (_shift v) (_min v) (_max v) fi fp fv)
      | _ =>
          si <- cast_value fi shift val ;;
          lo <- _cast fi shift min ;;
          hi <- _cast fi shift max ;;
          match hi with
          | None => Ok (mkfixbv si shift lo hi fi fp fv)
          | Some h =>
              match lo with
              | Some l =>
                  if l <? h then Ok (mkfixbv si shift lo hi fi fp fv)
                  else Raise AssertionError
              | None => Raise TypeError
              end
          end
      end ;;
    _ <- _handleBounds self ;;
    Ok self.

(** [fixbv(val, shift)] with the remaining arguments at their defaults. *)
Definition fixbv_new (val : pyval) (shift : Z) : result fixbv :=
  __init__ val shift None None (AFlag false).

(** The property setters [si], [minsi] and [maxsi]. *)
Definition setsi (val : pyval) : method unit := fun self =>
  match py_int val with
  | Ok n => (with_val self n, Ok tt)
  | Raise e => (self, Raise e)
  end.

Definition setminsi (minsi : option pyval) : method unit := fun self =>
  match _cast (_init_asfloat self) (getshift self) minsi with
  | Ok m => (with_min self m, Ok tt)
  | Raise e => (self, Raise e)
  end.

Definition setmaxsi (maxsi : option pyval) : method unit := fun self =>
  match _cast (_init_asfloat self) (getshift self) maxsi with
  | Ok m => (with_max self m, Ok tt)
  | Raise e => (self, Raise e)
  end.

(** [getnrbits]; [None - 1] is a [TypeError]. *)
Definition getnrbits (self : fixbv) : result Z :=
  match getminsi self with
  | None => Ok 0
  | Some minsi =>
      let NrBitsMin := calc_nr_bits minsi in
      match getmaxsi self with
      | None => Raise TypeError
      | Some maxsi =>
          let NrBitsMax := calc_nr_bits (maxsi - 1) in
          Ok (Z.max NrBitsMin NrBitsMax)
      end
  end.

(** ** Alignment of instances and the integer-valued check *)

(** [is_integer]. *)
Definition is_integer (self : fixbv) : bool :=
  if 0 <=? getshift self then true
  else _val self mod 2 ^ (- getshift self) =? 0.

(** [_isfixbv], on the operands of the model. *)
Definition _isfixbv (other : pyval) : bool :=
  match other with
  | PFixbv _ => true
  | _ => false
  end.

(** The pattern shared by the binary operators:
    [if self._isfixbv(other): body  else: x = fixbv(other); return self OP x],
    where the second call takes the first branch. *)
Definition on_fixbv {A : Type} (other : pyval) (body : fixbv -> result A)
  : result A :=
  match other with
  | PFixbv o => body o
  | _ => x <- fixbv_new other 0 ;; body x
  end.

(** [align]. *)
Definition align (self : fixbv) (other : pyval) : result (fixbv * fixbv) :=
  on_fixbv other (fun other =>
    let a := (getsi self, getshift self) in
    let b := (getsi other, getshift other) in
    let '(c, d) := alignvalues a b in
    x <- fixbv_new (PInt (fst c)) (snd c) ;;
    y <- fixbv_new (PInt (fst d)) (snd d) ;;
    Ok (x, y)).

(** ** Arithmetic operators *)

Definition __add__ (self : fixbv) (other : pyval) : result fixbv :=
  on_fixbv other (fun other =>
    '(c, d) <- align self (PFixbv other) ;;
    fixbv_new (PInt (getsi c + getsi d)) (getshift c)).

Definition __radd__ := __add__.

Definition __sub__ (self : fixbv) (other : pyval) : result fixbv :=
  on_fixbv other (fun other =>
    '(c, d) <- align self (PFixbv other) ;;
    fixbv_new (PInt (getsi c - getsi d)) (getshift c)).

Definition __rsub__ (self : fixbv) (other : pyval) : result fixbv :=
  x <- fixbv_new other 0 ;;
  __sub__ x (PFixbv self).

Definition __mul__ (self : fixbv) (other : pyval) : result fixbv :=
  on_fixbv other (fun other =>
    fixbv_new (PInt (getsi self * getsi other)) (getshift self + getshift other)).

Definition __rmul__ := __mul__.

(** Python's [//] and [%] on integers. *)
Definition py_floordiv (a b : Z) : result Z :=
  if b =? 0 then Raise ZeroDivisionError else Ok (a / b).

Definition py_mod (a b : Z) : result Z :=
  if b =? 0 then Raise ZeroDivisionError else Ok (a mod b).

Definition __floordiv__ (self : fixbv) (other : pyval) : result fixbv :=
  on_fixbv other (fun other =>
    '(c, d) <- align self (PFixbv other) ;;
    q <- py_floordiv (getsi c) (getsi d) ;;
    fixbv_new (PInt q) 0).

Definition __mod__ (self : fixbv) (other : pyval) : result fixbv :=
  on_fixbv other (fun other =>
    '(c, d) <- align self (PFixbv other) ;;
    r <- py_mod (getsi c) (getsi d) ;;
    fixbv_new (PInt r) (getshift c)).

Definition __rmod__ (self : fixbv) (other : pyval) : result fixbv :=
  x <- fixbv_new other 0 ;;
  __mod__ x (PFixbv self).

(** [float.is_integer] on the finite float [m * 2**e]. *)
Definition float_is_integer (m e : Z) : bool :=
  if 0 <=? e then true else m mod 2 ^ (- e) =? 0.

Definition __pow__ (self : fixbv) (other : pyval) : result fixbv :=
  _ <- match other with
       | PFloat m e =>
           if float_is_integer m e then Ok tt else Raise TypeError
       | PFixbv o =>
           if is_integer o then Ok tt else Raise TypeError
       | PInt _ => Ok tt
       | _ => Raise TypeError
       end ;;
  powerval <- py_int other ;;
  if 0 <=? powerval
  then fixbv_new (PInt (getsi self ^ powerval)) (getshift self * powerval)
  else Raise (neg_power_exn (getsi self) powerval).

Definition __rpow__ (self : fixbv) (other : pyval) : result fixbv :=
  Raise NotImplementedError.

(** The in-place forms build their result with the plain operator and
    validate it; [self] is not assigned to. *)
Definition __iadd__ (self : fixbv) (other : pyval) : result fixbv :=
  result <- __add__ self other ;;
  _ <- _handleBounds result ;;
  Ok result.

Definition __isub__ (self : fixbv) (other : pyval) : result fixbv :=
  result <- __sub__ self other ;;
  _ <- _handleBounds result ;;
  Ok result.

Definition __imul__ (self : fixbv) (other : pyval) : result fixbv :=
  result <- __mul__ self other ;;
  _ <- _handleBounds result ;;
  Ok result.

Definition __ifloordiv__ (self : fixbv) (other : pyval) : result fixbv :=
  result <- __floordiv__ self other ;;
  _ <- _handleBounds result ;;
  Ok result.

Definition __imod__ (self : fixbv) (other : pyval) : result fixbv :=
  result <- __mod__ self other ;;
  _ <- _handleBounds result ;;
  Ok result.

Definition __neg__ (self : fixbv) : result fixbv :=
  fixbv_new (PInt (- getsi self)) (getshift self).

Definition __pos__ (self : fixbv) : result fixbv :=
  fixbv_new (PInt (getsi self)) (getshift self).

Definition __abs__ (self : fixbv) : result fixbv :=
  fixbv_new (PInt (Z.abs (getsi self))) (getshift self).

(** ** Methods that assign to the instance *)

Definition ret {A : Type} (a : A) : method A := fun self => (self, Ok a).

Definition lift {A : Type} (r : result A) : method A := fun self => (self, r).

Definition mbind {A B : Type} (m : method A) (k : A -> method B) : method B :=
  fun self =>
    let '(self', r) := m self in
    match r with
    | Ok a => k a self'
    | Raise e => (self', Raise e)
    end.

Notation "x <~ m ;; k" := (mbind m (fun x => k))
  (at level 61, m at next level, right associativity).

(** Reading an attribute of [self] inside a method. *)
Definition reading {A : Type} (get : fixbv -> A) : method A :=
  fun self => (self, Ok (get self)).

(** [self._handleBounds()] inside a method. *)
Definition check_bounds : method unit := fun self => (self, _handleBounds self).

(** [__truediv__] and [__itruediv__] raise before looking at anything;
    the operand may be any value. *)
Definition __truediv__ {A : Type} (other : A) : method fixbv :=
  lift (Raise NotImplementedError).

Definition __itruediv__ {A : Type} (other : A) : method fixbv :=
  lift (Raise TypeError).

Definition __idiv__ {A : Type} (other : A) : method fixbv :=
  lift (Raise TypeError).

(** Python's [<<] and [>>] on integers: a negative count is an error. *)
Definition py_lshift (a n : Z) : result Z :=
  if n <? 0 then Raise ValueError else Ok (Z.shiftl a n).

Definition py_rshift (a n : Z) : result Z :=
  if n <? 0 then Raise ValueError else Ok (Z.shiftr a n).

Definition __lshift__ (self : fixbv) (other : pyval) : result fixbv :=
  on_fixbv other (fun other =>
    if is_integer other then
      n <- __int__ other ;;
      fixbv_new (PInt (getsi self)) (getshift self + n)
    else Raise TypeError).

Definition __rshift__ (self : fixbv) (other : pyval) : result fixbv :=
  on_fixbv other (fun other =>
    if is_integer other then
      n <- __int__ other ;;
      fixbv_new (PInt (getsi self)) (getshift self - n)
    else Raise TypeError).

(** The first branch of [__ilshift__], without the final validation. *)
Definition ilshift_si (other : fixbv) : method unit :=
  if is_integer other then
    si <~ reading getsi ;;
    n <~ lift (__int__ other) ;;
    v <~ lift (py_lshift si n) ;;
    setsi (PInt v)
  else lift (Raise TypeError).

(** [__ilshift__]: for another operand, [self <<= x] runs the method
    once more on [x = fixbv(other)], validation included, and the outer
    call validates again. *)
Definition __ilshift__ (other : pyval) : method unit :=
  _ <~ match other with
       | PFixbv o => ilshift_si o
       | _ =>
           x <~ lift (fixbv_new other 0) ;;
           _ <~ ilshift_si x ;;
           check_bounds
       end ;;
  check_bounds.

Definition irshift_si (other : fixbv) : method unit :=
  if is_integer other then
    si <~ reading getsi ;;
    n <~ lift (__int__ other) ;;
    v <~ lift (py_rshift si n) ;;
    setsi (PInt v)
  else lift (Raise TypeError).

Definition __irshift__ (other : pyval) : method unit :=
  _ <~ match other with
       | PFixbv o => irshift_si o
       | _ =>
           x <~ lift (fixbv_new other 0) ;;
           _ <~ irshift_si x ;;
           check_bounds
       end ;;
  check_bounds.

(** ** Comparison *)

Definition __eq__ (self : fixbv) (other : pyval) : result bool :=
  on_fixbv other (fun other =>
    '(c, d) <- align self (PFixbv other) ;;
    Ok (getsi c =? getsi d)).

Definition __ne__ (self : fixbv) (other : pyval) : result bool :=
  b <- __eq__ self other ;; Ok (negb b).

Definition __lt__ (self : fixbv) (other : pyval) : result bool :=
  on_fixbv other (fun other =>
    '(c, d) <- align self (PFixbv other) ;;
    Ok (getsi c <? getsi d)).

Definition __le__ (self : fixbv) (other : pyval) : result bool :=
  on_fixbv other (fun other =>
    '(c, d) <- align self (PFixbv other) ;;
    Ok (getsi c <=? getsi d)).

(** ** Indexing and slicing *)

(** A subscript: an index or a slice [start:stop], either end of which
    may be left out ([None]). *)
Inductive subscript : Type :=
| KIndex (key : Z)
| KSlice (start stop : option Z).

(** What [__getitem__] returns: a [bool], or the arguments of the
    [intbv(value, _nrbits=n)] it builds. *)
Inductive item : Type :=
| Bit (b : bool)
| Bits (value nrbits : Z).

(** [__getitem__].  [None - self.shift] is a [TypeError], so the two
    defaults for a slice are never reached. *)
Definition __getitem__ (self : fixbv) (key : subscript) : result item :=
  match key with
  | KSlice start stop =>
      match start, stop with
      | Some start, Some stop =>
          let i := start - getshift self in
          let j := stop - getshift self in
          if j <? 0 then Raise ValueError
          else if i <=? j then Raise ValueError
          else
            one <- py_lshift 1 i ;;
            v <- py_rshift (Z.land (getsi self) (one - 1)) j ;;
            Ok (Bits v (i - j))
      | _, _ => Raise TypeError
      end
  | KIndex key =>
      let i := key - getshift self in
      v <- py_rshift (getsi self) i ;;
      Ok (Bit (negb (Z.land v 1 =? 0)))
  end.

(** [__setitem__]. *)
Definition __setitem__ (key : subscript) (val : pyval) : method unit :=
  val <~ lift (py_int val) ;;
  match key with
  | KSlice i j =>
      let j := match j with None => 0 | Some j => j end in
      if j <? 0 then lift (Raise ValueError)
      else
        match i with
        | None =>
            si <~ reading getsi ;;
            one <~ lift (py_lshift 1 j) ;;
            q <~ lift (py_mod si one) ;;
            _ <~ setsi (PInt (val * one + q)) ;;
            check_bounds
        | Some i =>
            if i <=? j then lift (Raise ValueError)
            else
              lim <~ lift (py_lshift 1 (i - j)) ;;
              if (val >=? lim) || (val <? - lim) then lift (Raise ValueError)
              else
                mask <~ lift (py_lshift (lim - 1) j) ;;
                si <~ reading getsi ;;
                _ <~ setsi (PInt (Z.land si (Z.lnot mask))) ;;
                si <~ reading getsi ;;
                v <~ lift (py_lshift val j) ;;
                _ <~ setsi (PInt (Z.lor si v)) ;;
                check_bounds
        end
  | KIndex key =>
      let i := key in
      _ <~ (if val =? 1 then
              si <~ reading getsi ;;
              b <~ lift (py_lshift 1 i) ;;
              setsi (PInt (Z.lor si b))
            else if val =? 0 then
              si <~ reading getsi ;;
              b <~ lift (py_lshift 1 i) ;;
              setsi (PInt (Z.land si (Z.lnot b)))
            else lift (Raise ValueError)) ;;
      check_bounds
  end.

(** ** Two's-complement reading *)

(** The names an instance answers to: the attributes [__init__] sets and
    the names bound in the class body. *)
Definition instance_attributes : list string :=
  ["_init_asfloat"; "_print_asfloat"; "_vcd_asfloat";
   "_shift"; "_val"; "_min"; "_max"]%string.

Definition class_attributes : list string :=
  ["__init__"; "maxfloat"; "minfloat"; "getsi"; "setsi"; "si";
   "getshift"; "shift"; "getfractionlength"; "fractionlength";
   "getminsi"; "setminsi"; "minsi"; "getmaxsi"; "setmaxsi"; "maxsi";
   "getnrbits"; "nrbits"; "_cast"; "fixto"; "_isfixbv"; "eps"; "align";
   "_handleBounds"; "__hash__"; "__copy__"; "__deepcopy__"; "__bool__";
   "__nonzero__"; "__len__"; "is_integer"; "__iter__"; "__getitem__";
   "__setitem__"; "__index__"; "__add__"; "__radd__"; "__sub__";
   "__rsub__"; "__mul__"; "__rmul__"; "__truediv__"; "__rtruediv__";
   "__floordiv__"; "__rfloordiv__"; "__mod__"; "__rmod__"; "__pow__";
   "__rpow__"; "__iadd__"; "__isub__"; "__imul__"; "__ifloordiv__";
   "__idiv__"; "__itruediv__"; "__imod__"; "__neg__"; "__pos__";
   "__abs__"; "__lshift__"; "__rlshift__"; "__rshift__"; "__rrshift__";
   "__ilshift__"; "__irshift__"; "__invert__"; "__eq__"; "__ne__";
   "__lt__"; "__le__"; "__gt__"; "__ge__"; "__float__"; "__int__";
   "__long__"; "__oct__"; "__hex__"; "__str__"; "__repr__";
   "signed"]%string.

Definition hasattr (name : string) : bool :=
  existsb (String.eqb name) (instance_attributes ++ class_attributes).

(** Reading a bound through an attribute name.  The class is derived
    from [object] and defines no [__getattr__]: a name that neither it
    nor [__init__] binds is an [AttributeError].  The bounds are bound
    as [_min] and [_max] and read through the properties [minsi] and
    [maxsi]; the other names hold no bound. *)
Definition getattr_bound (self : fixbv) (name : string) : result (option Z) :=
  if negb (hasattr name) then Raise AttributeError
  else if (String.eqb name "_min" || String.eqb name "minsi")%string
  then Ok (getminsi self)
  else if (String.eqb name "_max" || String.eqb name "maxsi")%string
  then Ok (getmaxsi self)
  else Raise TypeError.

(** The body of [signed] once the lower bound [lo] has been read. *)
Definition signed_of (lo : option Z) (self : fixbv) : result Z :=
  unsigned <-
    match lo with
    | None => Ok false
    | Some lo =>
        if lo >=? 0 then nrbits <- getnrbits self ;; Ok (nrbits >? 0)
        else Ok false
    end ;;
  if unsigned : bool then
    nrbits <- getnrbits self ;;
    let msb := nrbits - 1 in
    v <- py_rshift (getsi self) msb ;;
    let sign := Z.land v 1 >? 0 in
    one <- py_lshift 1 msb ;;
    let mask := one - 1 in
    let retVal := Z.land (getsi self) mask in
    if sign then Ok (retVal - one) else Ok retVal
  else Ok (getsi self).

(** [signed]: the test reads [self.min]. *)
Definition signed (self : fixbv) : result Z :=
  lo <- getattr_bound self "min" ;;
  signed_of lo self.

(** ** The operators by name *)

Inductive binop : Type := Add | Sub | Mul | FloorDiv | Mod | Pow.

Definition binary (op : binop) : fixbv -> pyval -> result fixbv :=
  match op with
  | Add => __add__
  | Sub => __sub__
  | Mul => __mul__
  | FloorDiv => __floordiv__
  | Mod => __mod__
  | Pow => __pow__
  end.

Inductive inplace_op : Type := IAdd | ISub | IMul | IFloorDiv | IMod.

Definition inplace (op : inplace_op) : fixbv -> pyval -> result fixbv :=
  match op with
  | IAdd => __iadd__
  | ISub => __isub__
  | IMul => __imul__
  | IFloorDiv => __ifloordiv__
  | IMod => __imod__
  end.

(** The plain operator an in-place form calls. *)
Definition plain (op : inplace_op) : binop :=
  match op with
  | IAdd => Add
  | ISub => Sub
  | IMul => Mul
  | IFloorDiv => FloorDiv
  | IMod => Mod
  end.

(** ** Further methods *)

(** [fixto], for an argument that is an instance (any other argument
    ends in an [Exception]). *)
Definition fixto (self other : fixbv) : result fixbv :=
  let shift2 := getshift other in
  let sh := getshift self - shift2 in
  si <- (if sh >=? 0 then Ok (getsi self * 2 ^ sh)
         else py_floordiv (getsi self) (2 ^ (- sh))) ;;
  fixbv_new (PInt si) shift2.

(** [__copy__] and [__deepcopy__]: both call the constructor on the four
    properties. *)
Definition __copy__ (self : fixbv) : result fixbv :=
  __init__ (PInt (getsi self)) (getshift self)
           (option_map PInt (getminsi self)) (option_map PInt (getmaxsi self))
           (AFlag false).

Definition __deepcopy__ {A : Type} (self : fixbv) (memo : A) : result fixbv :=
  __init__ (PInt (getsi self)) (getshift self)
           (option_map PInt (getminsi self)) (option_map PInt (getmaxsi self))
           (AFlag false).

(** [__bool__]: [bool(self.si)]. *)
Definition __bool__ (self : fixbv) : bool := negb (getsi self =? 0).

Definition __len__ (self : fixbv) : result Z := getnrbits self.

Definition __index__ (self : fixbv) : result Z := __int__ self.

Definition __hash__ (self : fixbv) : result Z := Raise TypeError.

Definition __gt__ (self : fixbv) (other : pyval) : result bool :=
  b <- __le__ self other ;; Ok (negb b).

Definition __ge__ (self : fixbv) (other : pyval) : result bool :=
  b <- __lt__ self other ;; Ok (negb b).

Definition __rlshift__ (self : fixbv) (other : pyval) : result fixbv :=
  x <- fixbv_new other 0 ;;
  __lshift__ x (PFixbv self).

Definition __rrshift__ (self : fixbv) (other : pyval) : result fixbv :=
  x <- fixbv_new other 0 ;;
  __rshift__ x (PFixbv self).

Definition __rtruediv__ (self : fixbv) (other : pyval) : result fixbv :=
  x <- fixbv_new other 0 ;;
  snd (__truediv__ (PFixbv self) x).

(** [__invert__]; [type(self)(v)] is [fixbv(v)], with shift 0. *)
Definition __invert__ (self : fixbv) : result fixbv :=
  nrbits <- getnrbits self ;;
  unsigned <-
    (if nrbits =? 0 then Ok false
     else match getminsi self with
          | Some minsi => Ok (minsi >=? 0)
          | None => Raise TypeError
          end) ;;
  if unsigned : bool then
    nrbits <- getnrbits self ;;
    one <- py_lshift 1 nrbits ;;
    fixbv_new (PInt (Z.land (Z.lnot (getsi self)) (one - 1))) 0
  else fixbv_new (PInt (Z.lnot (getsi self))) 0.

(** A list comprehension whose element expression may raise. *)
Fixpoint comprehension {A B : Type} (f : A -> result B) (l : list A)
  : result (list B) :=
  match l with
  | [] => Ok []
  | a :: l' => b <- f a ;; bs <- comprehension f l' ;; Ok (b :: bs)
  end.

(** [range(n - 1, -1, -1)]: from [n - 1] down to 0. *)
Definition range_down (n : Z) : list Z :=
  map (fun k => n - 1 - Z.of_nat k) (seq 0 (Z.to_nat n)).

(** [__iter__]: the list the iterator runs over. *)
Definition __iter__ (self : fixbv) : result (list item) :=
  nrbits <- getnrbits self ;;
  if nrbits =? 0 then Raise TypeError
  else
    nrbits <- getnrbits self ;;
    comprehension (fun i => __getitem__ self (KIndex (i + getshift self)))
                  (range_down nrbits).

End Fixbv.

Notation "x <~ m ;; k" := (mbind m (fun x => k))
  (at level 61, m at next level, right associativity).

(** ** Notions of the specification *)

(** The range invariant: with both bounds set, the stored integer lies in
    the half-open interval they span. *)
Definition in_bounds (self : fixbv) : Prop :=
  match getminsi self, getmaxsi self with
  | Some lo, Some hi => lo <= getsi self < hi
  | _, _ => True
  end.

(** An instance without bounds. *)
Definition unbounded (r : fixbv) : Prop :=
  getminsi r = None /\ getmaxsi r = None.

(** A method keeps the range invariant when, run on any instance, it
    either returns with the invariant holding, or ends in an error having
    assigned nothing, or ends in the range error of [_handleBounds] on an
    instance that is out of range. *)
Definition validated (m : method unit) : Prop :=
  forall self,
    match m self with
    | (self', Ok _) => in_bounds self'
    | (self', Raise e) => self' = self \/ (e = RangeError /\ ~ in_bounds self')
    end.

(** The real-world value of an instance. *)
Definition realValueOf (self : fixbv) : Q :=
  realValue (getsi self, getshift self).

(** The bit width of one integer as the specification defines it, with an
    exact base-two logarithm rounded up. *)
Definition bitWidthOf (v : Z) : Z :=
  if v =? 0 then 0
  else if v <? 0 then Z.log2_up (- v) + 1
  else Z.log2_up (v + 1) + 1.

(** The derived bit width of an instance as the specification defines it. *)
Definition bitWidth (self : fixbv) : Z :=
  match getminsi self, getmaxsi self with
  | Some lo, Some hi => Z.max (bitWidthOf lo) (bitWidthOf (hi - 1))
  | _, _ => 0
  end.

(** The signed interpretation as the specification words it: with a lower
    bound that is set and not negative and a positive bit width, the
    stored integer is read as an unsigned field of that width and its top
    bit is taken as the sign; otherwise the stored integer is returned. *)
Definition signedInterpretation (self : fixbv) : Z :=
  match getminsi self with
  | Some lo =>
      if (0 <=? lo) && (0 <? bitWidth self) then
        let msb := bitWidth self - 1 in
        let low := getsi self mod 2 ^ msb in
        if Z.testbit (getsi self) msb then low - 2 ^ msb else low
      else getsi self
  | None => getsi self
  end.

(** The error classes of the specification that the division operators
    are measured against: a type or usage error is a [TypeError]; an
    unsupported operation is a [NotImplementedError] (as for [__rpow__]). *)
Definition is_type_error (e : exn) : bool :=
  match e with TypeError => true | _ => false end.

Definition is_unsupported_operation (e : exn) : bool :=
  match e with NotImplementedError => true | _ => false end.

(** ** Instances for running the model *)

(** [fixbv(si, shift)] and [fixbv(si, shift, min=lo, max=hi)]. *)
Definition plain_fixbv (si shift : Z) : fixbv :=
  mkfixbv si shift None None false false false.

Definition bounded_fixbv (si shift lo hi : Z) : fixbv :=
  mkfixbv si shift (Some lo) (Some hi) false false false.

(** The stored integer of [x] on the finer of the grids of [x] and [y]. *)
Definition on_common_grid (x y : fixbv) : Z :=
  getsi x * 2 ^ (getshift x - Z.min (getshift x) (getshift y)).

(** The flags an [asfloat] argument sets. *)
Definition flags_of (asfloat : asfloat_arg) : bool * bool * bool :=
  match asfloat with
  | ATriple b0 b1 b2 => (b0, b1, b2)
  | AFlag b => (b, b, b)
  end.

(** ** Reflected operators *)

(** What a binary operator hands back: an instance, or a plain integer. *)
Inductive returned : Type :=
| Instance (r : fixbv)
| PlainInt (n : Z).

(** [float_floordiv other si shift] is
    [int(float(other) // float(si * 2**shift))] where the doubles
    involved are not exact; as for [FloatModel], the development holds
    for every choice of it. *)
Class FloatDivision : Type := {
  float_floordiv : pyval -> Z -> Z -> result Z
}.

(** An integer below [2**53] in magnitude is a double. *)
Definition fits_double (n : Z) : bool := Z.abs n <? 2 ^ 53.

(** [PFloat m e] with a significand and a value below [2**53] in
    magnitude, and an exponent a double can have. *)
Definition exact_float (m e : Z) : bool :=
  fits_double m && (-1074 <=? e) && ((e <=? 0) || fits_double (m * 2 ^ e)).

Section Reflected.

Context {FM : FloatModel} {FD : FloatDivision}.

(** [__rfloordiv__]: [int(float(other) // float(self.si * 2**self.shift))],
    an [int] (an [intbv] is read through its [_val], the same number).
    Where the divisor is an integer below [2**53] in magnitude and
    [other] is such an integer, or a float below [2**53] in magnitude,
    the conversions, the remainder and the quotient of the floating-point
    floor division are all exact, and the result is the floor of the
    quotient; a divisor 0 is a [ZeroDivisionError].  Elsewhere the
    result is what the double-precision arithmetic gives. *)
Definition __rfloordiv__ (self : fixbv) (other : pyval) : result Z :=
  let d := getsi self * 2 ^ getshift self in
  if (0 <=? getshift self) && fits_double d then
    match other with
    | PInt n =>
        if fits_double n then py_floordiv n d
        else float_floordiv other (getsi self) (getshift self)
    | PFloat m e =>
        if exact_float m e then
          if 0 <=? e then py_floordiv (m * 2 ^ e) d
          else py_floordiv m (d * 2 ^ (- e))
        else float_floordiv other (getsi self) (getshift self)
    | _ => float_floordiv other (getsi self) (getshift self)
    end
  else float_floordiv other (getsi self) (getshift self).

(** The operator applied with the instance as its left operand. *)
Definition forward (op : binop) (self : fixbv) (other : pyval)
  : result returned :=
  r <- binary op self other ;; Ok (Instance r).

(** The operator applied with the instance as its right operand: the
    reflected method, called with the left operand as [other]. *)
Definition reflected (op : binop) (self : fixbv) (other : pyval)
  : result returned :=
  match op with
  | Add => r <- __radd__ self other ;; Ok (Instance r)
  | Sub => r <- __rsub__ self other ;; Ok (Instance r)
  | Mul => r <- __rmul__ self other ;; Ok (Instance r)
  | FloorDiv => n <- __rfloordiv__ self other ;; Ok (PlainInt n)
  | Mod => r <- __rmod__ self other ;; Ok (Instance r)
  | Pow => r <- __rpow__ self other ;; Ok (Instance r)
  end.

End Reflected.
(** * Properties *)

(** ** Alignment *)

Example alignvalues_doc_example :
  alignvalues (100, 10) (10, 2) = ((25600, 2), (10, 2)).
Proof. reflexivity. Qed.

Example alignvalues_swapped :
  alignvalues (10, 2) (100, 10) = ((10, 2), (25600, 2)).
Proof. reflexivity. Qed.

Lemma alignvalues_ge (a_val a_shift b_val b_shift : Z) :
  b_shift <= a_shift ->
  alignvalues (a_val, a_shift) (b_val, b_shift)
  = ((a_val * 2 ^ (a_shift - b_shift), b_shift), (b_val, b_shift)).
Proof.
  intros H. simp alignvalues.
  generalize (inspect (b_shift <=? a_shift)).
  intros [[|] e]; simp alignvalues.
  - reflexivity.
  - lia.
Qed.

Lemma alignvalues_lt (a_val a_shift b_val b_shift : Z) :
  a_shift < b_shift ->
  alignvalues (a_val, a_shift) (b_val, b_shift)
  = ((a_val, a_shift), (b_val * 2 ^ (b_shift - a_shift), a_shift)).
Proof.
  intros H. simp alignvalues.
  generalize (inspect (b_shift <=? a_shift)).
  intros [[|] e]; simp alignvalues.
  - lia.
  - generalize (inspect (a_shift <=? b_shift)).
    intros [[|] e']; simp alignvalues.
    + reflexivity.
    + lia.
Qed.

Lemma alignvalues_cases (a_val a_shift b_val b_shift : Z) :
  alignvalues (a_val, a_shift) (b_val, b_shift)
  = if b_shift <=? a_shift
    then ((a_val * 2 ^ (a_shift - b_shift), b_shift), (b_val, b_shift))
    else ((a_val, a_shift), (b_val * 2 ^ (b_shift - a_shift), a_shift)).
Proof.
  destruct (Z.leb_spec b_shift a_shift).
  - now apply alignvalues_ge.
  - now apply alignvalues_lt.
Qed.

Lemma alignvalues_swap (a b : Z * Z) :
  alignvalues b a = (snd (alignvalues a b), fst (alignvalues a b)).
Proof.
  destruct a as [a_val a_shift], b as [b_val b_shift].
  rewrite !alignvalues_cases.
  destruct (Z.leb_spec b_shift a_shift), (Z.leb_spec a_shift b_shift);
    cbn [fst snd]; try lia; try reflexivity.
  assert (a_shift = b_shift) as -> by lia.
  rewrite Z.sub_diag, Z.pow_0_r, !Z.mul_1_r. reflexivity.
Qed.

Lemma realValue_rescale (v e d : Z) :
  0 <= d -> Qeq (realValue (v * 2 ^ d, e - d)) (realValue (v, e)).
Proof.
  intros Hd. unfold realValue. cbn [fst snd].
  rewrite inject_Z_mult, Zpower_Qpower by assumption.
  change (inject_Z 2) with (2 # 1)%Q.
  rewrite <- Qmult_assoc, <- Qpower_plus by discriminate.
  replace (d + (e - d)) with e by lia.
  reflexivity.
Qed.

(** C2: [alignvalues] re-expresses both pairs at the smaller of the two
    shifts: the pair with the larger shift has its value multiplied by
    two to the difference of the shifts, the other pair is returned as
    it is, two pairs with the same shift are both returned as they are,
    and the real value of each operand is the same before and after. *)
Theorem alignvalues_min_exact (a_val a_shift b_val b_shift : Z) :
  let target := Z.min a_shift b_shift in
  let '(a', b') := alignvalues (a_val, a_shift) (b_val, b_shift) in
  a' = (a_val * 2 ^ (a_shift - target), target)
  /\ b' = (b_val * 2 ^ (b_shift - target), target)
  /\ Qeq (realValue a') (realValue (a_val, a_shift))
  /\ Qeq (realValue b') (realValue (b_val, b_shift))
  /\ (if a_shift <=? b_shift then a' = (a_val, a_shift) else b' = (b_val, b_shift))
  /\ (if a_shift =? b_shift
      then a' = (a_val, a_shift) /\ b' = (b_val, b_shift)
      else True).
Proof.
  cbv zeta. rewrite alignvalues_cases.
  destruct (Z.leb_spec b_shift a_shift) as [Hle | Hlt].
  - replace (Z.min a_shift b_shift) with b_shift by lia.
    replace (b_shift - b_shift) with 0 by lia.
    rewrite Z.pow_0_r, Z.mul_1_r.
    refine (conj eq_refl (conj eq_refl (conj _ (conj _ (conj _ _))))).
    + replace b_shift with (a_shift - (a_shift - b_shift)) at 2 by lia.
      apply realValue_rescale. lia.
    + reflexivity.
    + destruct (Z.leb_spec a_shift b_shift); [| reflexivity].
      replace (a_shift - b_shift) with 0 by lia.
      rewrite Z.pow_0_r, Z.mul_1_r. f_equal. lia.
    + destruct (Z.eqb_spec a_shift b_shift) as [-> | Hne]; [| exact I].
      rewrite Z.sub_diag, Z.pow_0_r, Z.mul_1_r. split; reflexivity.
  - replace (Z.min a_shift b_shift) with a_shift by lia.
    replace (a_shift - a_shift) with 0 by lia.
    rewrite Z.pow_0_r, Z.mul_1_r.
    refine (conj eq_refl (conj eq_refl (conj _ (conj _ (conj _ _))))).
    + reflexivity.
    + replace a_shift with (b_shift - (b_shift - a_shift)) at 2 by lia.
      apply realValue_rescale. lia.
    + destruct (Z.leb_spec a_shift b_shift); [reflexivity | lia].
    + destruct (Z.eqb_spec a_shift b_shift) as [-> | Hne]; [lia | exact I].
Qed.

Section Properties.

Context {FM : FloatModel} {FD : FloatDivision}.

(** ** Construction *)

Lemma fixbv_new_int (n shift : Z) :
  fixbv_new (PInt n) shift = Ok (mkfixbv n shift None None false false false).
Proof. reflexivity. Qed.

Lemma align_fixbv (self other : fixbv) :
  align self (PFixbv other)
  = let '(c, d) := alignvalues (getsi self, getshift self)
                               (getsi other, getshift other) in
    Ok (mkfixbv (fst c) (snd c) None None false false false,
        mkfixbv (fst d) (snd d) None None false false false).
Proof.
  unfold align, on_fixbv.
  destruct (alignvalues _ _) as [c d]. reflexivity.
Qed.

(** ** Bit width *)

Lemma bitWidthOf_positive (v : Z) :
  0 < v -> 2 ^ (bitWidthOf v - 2) < v + 1 <= 2 ^ (bitWidthOf v - 1).
Proof.
  intros H. unfold bitWidthOf.
  assert ((v =? 0) = false) as -> by lia.
  assert ((v <? 0) = false) as -> by lia.
  pose proof (Z.log2_up_spec (v + 1) ltac:(lia)) as Hs.
  replace (Z.log2_up (v + 1) + 1 - 2) with (Z.pred (Z.log2_up (v + 1))) by lia.
  replace (Z.log2_up (v + 1) + 1 - 1) with (Z.log2_up (v + 1)) by lia.
  exact Hs.
Qed.

Lemma int_to_double_collision :
  int_to_double (2 ^ 60 + 1) = 2 ^ 60
  /\ int_to_double (2 ^ 60 - 2 + 1) = 2 ^ 60.
Proof. split; vm_compute; reflexivity. Qed.

(** C3: [calc_nr_bits] takes its logarithm in double precision, so it
    cannot be exact on all integers: whatever the floating-point
    logarithm returns, [2**60] and [2**60 - 2] get the same width,
    because [val + 1] rounds to the double [2.0**60] for both, while the
    exact widths are 62 and 61.  Only the width of 0 does not depend on
    the logarithm. *)
Theorem calc_nr_bits_double_collision :
  calc_nr_bits (2 ^ 60) = calc_nr_bits (2 ^ 60 - 2)
  /\ bitWidthOf (2 ^ 60) = 62
  /\ bitWidthOf (2 ^ 60 - 2) = 61
  /\ calc_nr_bits 0 = bitWidthOf 0.
Proof.
  split; [| repeat split; vm_compute; reflexivity].
  unfold calc_nr_bits.
  destruct int_to_double_collision as [-> ->].
  reflexivity.
Qed.

(** ** Signed reading *)

Lemma min_is_not_an_attribute : hasattr "min" = false.
Proof. vm_compute. reflexivity. Qed.

(** C1: [signed] reads [self.min], a name neither the class nor its
    instances bind (the lower bound is [_min], read through [minsi]):
    on every instance the call ends in an [AttributeError] and returns
    no integer. *)
Theorem signed_raises_AttributeError (self : fixbv) :
  signed self = Raise AttributeError.
Proof.
  unfold signed, getattr_bound.
  rewrite min_is_not_an_attribute. reflexivity.
Qed.

(** ** Equality *)

Lemma realValue_same_shift (a b t : Z) :
  Qeq (realValue (a, t)) (realValue (b, t)) <-> a = b.
Proof.
  unfold realValue; cbn [fst snd].
  rewrite Qmult_inj_r by (apply Qpower_not_0; discriminate).
  apply inject_Z_injective.
Qed.

Lemma realValue_at_min (v e t : Z) :
  t <= e -> Qeq (realValue (v * 2 ^ (e - t), t)) (realValue (v, e)).
Proof.
  intros H. replace t with (e - (e - t)) at 2 by lia.
  apply realValue_rescale. lia.
Qed.

Lemma alignvalues_at_min (a_val a_shift b_val b_shift : Z) :
  alignvalues (a_val, a_shift) (b_val, b_shift)
  = ((a_val * 2 ^ (a_shift - Z.min a_shift b_shift), Z.min a_shift b_shift),
     (b_val * 2 ^ (b_shift - Z.min a_shift b_shift), Z.min a_shift b_shift)).
Proof.
  rewrite alignvalues_cases.
  destruct (Z.leb_spec b_shift a_shift).
  - replace (Z.min a_shift b_shift) with b_shift by lia.
    now rewrite Z.sub_diag, Z.pow_0_r, Z.mul_1_r.
  - replace (Z.min a_shift b_shift) with a_shift by lia.
    now rewrite Z.sub_diag, Z.pow_0_r, Z.mul_1_r.
Qed.

(** C9: [==] between two instances aligns them to one shift and compares
    the aligned stored integers; it always answers, and answers [True]
    exactly when the two real values (stored integer times two to the
    shift) are equal; an integer on the right is first made an instance
    with shift 0; (4, -1) equals (1, 1). *)
Theorem eq_iff_same_real_value (x y : fixbv) :
  exists (c d : fixbv) (b : bool),
    align x (PFixbv y) = Ok (c, d)
    /\ getshift c = getshift d
    /\ Qeq (realValueOf c) (realValueOf x)
    /\ Qeq (realValueOf d) (realValueOf y)
    /\ __eq__ x (PFixbv y) = Ok b
    /\ b = (getsi c =? getsi d)
    /\ (b = true <-> Qeq (realValueOf x) (realValueOf y))
    /\ (forall n : Z, __eq__ x (PInt n) = __eq__ x (PFixbv (plain_fixbv n 0)))
    /\ __eq__ (plain_fixbv 4 (-1)) (PFixbv (plain_fixbv 1 1)) = Ok true.
Proof.
  pose proof (align_fixbv x y) as Ha.
  rewrite alignvalues_at_min in Ha. cbn [fst snd] in Ha.
  set (t := Z.min (getshift x) (getshift y)) in *.
  eexists _, _, _.
  split; [exact Ha |].
  assert (Hx : Qeq (realValue (getsi x * 2 ^ (getshift x - t), t)) (realValueOf x))
    by (apply realValue_at_min; subst t; lia).
  assert (Hy : Qeq (realValue (getsi y * 2 ^ (getshift y - t), t)) (realValueOf y))
    by (apply realValue_at_min; subst t; lia).
  split; [reflexivity |].
  split; [exact Hx |].
  split; [exact Hy |].
  split; [unfold __eq__, on_fixbv; rewrite Ha; reflexivity |].
  split; [reflexivity |].
  split; [| split; [intros n |]; reflexivity].
  cbn [getsi _val].
  rewrite Z.eqb_eq, <- Hx, <- Hy.
  symmetry. apply realValue_same_shift.
Qed.

(** ** Results of the arithmetic operators *)

Lemma bind_Ok {A B : Type} (m : result A) (k : A -> result B) (b : B) :
  bind m k = Ok b -> exists a, m = Ok a /\ k a = Ok b.
Proof. destruct m as [a | e]; cbn; [eauto | discriminate]. Qed.

Lemma on_fixbv_Ok {A : Type} (other : pyval) (body : fixbv -> result A) (r : A) :
  on_fixbv other body = Ok r -> exists o, body o = Ok r.
Proof.
  destruct other; cbn [on_fixbv]; intros H;
    try (apply bind_Ok in H; destruct H as (x & _ & H)); eauto.
Qed.

Lemma fixbv_new_int_unbounded (n shift : Z) (r : fixbv) :
  fixbv_new (PInt n) shift = Ok r -> unbounded r.
Proof. rewrite fixbv_new_int. intros [= <-]. split; reflexivity. Qed.

Lemma aligned_Ok {A : Type} (self o : fixbv) (k : fixbv * fixbv -> result A) (r : A) :
  bind (align self (PFixbv o)) k = Ok r ->
  exists c d, k (c, d) = Ok r.
Proof.
  intros H. apply bind_Ok in H. destruct H as ([c d] & _ & H). eauto.
Qed.

Lemma binary_unbounded (op : binop) (self : fixbv) (other : pyval) (r : fixbv) :
  binary op self other = Ok r -> unbounded r.
Proof.
  destruct op; cbn [binary]; intros H.
  - apply on_fixbv_Ok in H. destruct H as (o & H).
    apply aligned_Ok in H. destruct H as (c & d & H). cbn beta iota in H.
    eapply fixbv_new_int_unbounded; eassumption.
  - apply on_fixbv_Ok in H. destruct H as (o & H).
    apply aligned_Ok in H. destruct H as (c & d & H). cbn beta iota in H.
    eapply fixbv_new_int_unbounded; eassumption.
  - apply on_fixbv_Ok in H. destruct H as (o & H).
    eapply fixbv_new_int_unbounded; eassumption.
  - apply on_fixbv_Ok in H. destruct H as (o & H).
    apply aligned_Ok in H. destruct H as (c & d & H). cbn beta iota in H.
    apply bind_Ok in H. destruct H as (q & _ & H).
    eapply fixbv_new_int_unbounded; eassumption.
  - apply on_fixbv_Ok in H. destruct H as (o & H).
    apply aligned_Ok in H. destruct H as (c & d & H). cbn beta iota in H.
    apply bind_Ok in H. destruct H as (q & _ & H).
    eapply fixbv_new_int_unbounded; eassumption.
  - unfold __pow__ in H.
    apply bind_Ok in H. destruct H as (_ & _ & H).
    apply bind_Ok in H. destruct H as (p & _ & H).
    destruct (0 <=? p); [| discriminate].
    eapply fixbv_new_int_unbounded; eassumption.
Qed.

Lemma align_at_min (self o : fixbv) :
  let t := Z.min (getshift self) (getshift o) in
  align self (PFixbv o)
  = Ok (mkfixbv (getsi self * 2 ^ (getshift self - t)) t None None false false false,
        mkfixbv (getsi o * 2 ^ (getshift o - t)) t None None false false false).
Proof.
  cbv zeta. rewrite align_fixbv, alignvalues_at_min. reflexivity.
Qed.

Lemma reflected_unbounded (self : fixbv) (other : pyval) (r : fixbv) :
  __radd__ self other = Ok r \/ __rsub__ self other = Ok r
  \/ __rmul__ self other = Ok r \/ __rmod__ self other = Ok r ->
  unbounded r.
Proof.
  intros [H | [H | [H | H]]].
  - exact (binary_unbounded Add _ _ _ H).
  - unfold __rsub__ in H. apply bind_Ok in H. destruct H as (x & _ & H).
    exact (binary_unbounded Sub _ _ _ H).
  - exact (binary_unbounded Mul _ _ _ H).
  - unfold __rmod__ in H. apply bind_Ok in H. destruct H as (x & _ & H).
    exact (binary_unbounded Mod _ _ _ H).
Qed.

Lemma add_sub_mul_return (self o : fixbv) :
  (exists r, __add__ self (PFixbv o) = Ok r)
  /\ (exists r, __sub__ self (PFixbv o) = Ok r)
  /\ (exists r, __mul__ self (PFixbv o) = Ok r).
Proof.
  unfold __add__, __sub__, __mul__, on_fixbv.
  rewrite align_at_min.
  repeat split; eexists; reflexivity.
Qed.

Lemma floordiv_mod_return (self o : fixbv) :
  getsi o <> 0 ->
  (exists r, __floordiv__ self (PFixbv o) = Ok r)
  /\ (exists r, __mod__ self (PFixbv o) = Ok r).
Proof.
  intros Hnz.
  unfold __floordiv__, __mod__, on_fixbv.
  rewrite align_at_min. cbn [bind getsi _val getshift _shift].
  unfold py_floordiv, py_mod.
  set (t := Z.min (getshift self) (getshift o)).
  assert (0 < 2 ^ (getshift o - t)) by (apply Z.pow_pos_nonneg; subst t; lia).
  assert ((getsi o * 2 ^ (getshift o - t) =? 0) = false) as ->
    by (apply Z.eqb_neq; nia).
  split; eexists; reflexivity.
Qed.

Lemma reflected_int_return (self : fixbv) (n : Z) :
  (exists r, __radd__ self (PInt n) = Ok r)
  /\ (exists r, __rsub__ self (PInt n) = Ok r)
  /\ (exists r, __rmul__ self (PInt n) = Ok r)
  /\ (if getsi self =? 0
      then __rmod__ self (PInt n) = Raise ZeroDivisionError
      else exists r, __rmod__ self (PInt n) = Ok r).
Proof.
  change (__radd__ self (PInt n))
    with (__add__ self (PFixbv (mkfixbv n 0 None None false false false))).
  change (__rmul__ self (PInt n))
    with (__mul__ self (PFixbv (mkfixbv n 0 None None false false false))).
  change (__rsub__ self (PInt n))
    with (__sub__ (mkfixbv n 0 None None false false false) (PFixbv self)).
  change (__rmod__ self (PInt n))
    with (__mod__ (mkfixbv n 0 None None false false false) (PFixbv self)).
  destruct (add_sub_mul_return self (mkfixbv n 0 None None false false false))
    as (Ha & _ & Hm).
  destruct (add_sub_mul_return (mkfixbv n 0 None None false false false) self)
    as (_ & Hs & _).
  split; [exact Ha |]. split; [exact Hs |]. split; [exact Hm |].
  destruct (Z.eqb_spec (getsi self) 0) as [Hz | Hz].
  - unfold __mod__, on_fixbv. rewrite align_at_min.
    cbn [bind getsi getshift _val _shift]. unfold py_mod.
    fold (getsi self). rewrite Hz, Z.mul_0_l. reflexivity.
  - exact (proj2 (floordiv_mod_return _ self Hz)).
Qed.

Lemma floordiv_mod_zero (self o : fixbv) :
  getsi o = 0 ->
  __floordiv__ self (PFixbv o) = Raise ZeroDivisionError
  /\ __mod__ self (PFixbv o) = Raise ZeroDivisionError.
Proof.
  intros Hz. unfold __floordiv__, __mod__, on_fixbv. rewrite align_at_min.
  cbn [bind getsi getshift _val _shift]. unfold py_floordiv, py_mod.
  fold (getsi o). rewrite Hz, Z.mul_0_l. split; reflexivity.
Qed.


(** ** In-place arithmetic *)

Lemma _handleBounds_unbounded (r : fixbv) :
  unbounded r -> _handleBounds r = Ok tt.
Proof.
  intros [Hlo Hhi]. unfold _handleBounds. rewrite Hhi. reflexivity.
Qed.

Lemma inplace_is_plain (op : inplace_op) (self : fixbv) (other : pyval) :
  inplace op self other = binary (plain op) self other.
Proof.
  assert (H : forall m : result fixbv,
             (forall r, m = Ok r -> unbounded r) ->
             (result <- m ;; _ <- _handleBounds result ;; Ok result) = m).
  { intros [r | e] Hm; cbn [bind]; [| reflexivity].
    rewrite _handleBounds_unbounded by (apply Hm; reflexivity). reflexivity. }
  destruct op; cbn [inplace plain binary];
    unfold __iadd__, __isub__, __imul__, __ifloordiv__, __imod__;
    apply H; intros r Hr.
  - exact (binary_unbounded Add _ _ _ Hr).
  - exact (binary_unbounded Sub _ _ _ Hr).
  - exact (binary_unbounded Mul _ _ _ Hr).
  - exact (binary_unbounded FloorDiv _ _ _ Hr).
  - exact (binary_unbounded Mod _ _ _ Hr).
Qed.

Lemma plain_never_range_error (op : inplace_op) (self : fixbv) (other : pyval) :
  binary (plain op) self other <> Raise RangeError.
Proof.
  assert (Hc : forall A (body : fixbv -> result A),
             (forall o, body o <> Raise RangeError) ->
             on_fixbv other body <> Raise RangeError).
  { intros A body Hb. destruct other as [o | n | m e | [n |] |];
      cbn; try apply Hb; discriminate. }
  destruct op; cbn [plain binary];
    unfold __add__, __sub__, __mul__, __floordiv__, __mod__;
    apply Hc; intros o; try rewrite align_at_min;
    cbn [bind getsi getshift _val _shift]; unfold py_floordiv, py_mod;
    try discriminate.
  - destruct (_ =? 0); discriminate.
  - destruct (_ =? 0); discriminate.
Qed.

(** C10: each of [+=], [-=], [*=], [//=] and [%=] returns exactly what
    the plain operator returns, and [self] is not assigned to; when the
    plain operator returns an instance, that instance has no bounds,
    the validation of it passes without looking at its value, and the
    in-place form returns it; no such form ever ends in a range error. *)
Theorem inplace_arithmetic_never_range_error
  (op : inplace_op) (self : fixbv) (other : pyval) :
  inplace op self other = binary (plain op) self other
  /\ inplace op self other <> Raise RangeError
  /\ match binary (plain op) self other with
     | Ok r =>
         inplace op self other = Ok r
         /\ getminsi r = None /\ getmaxsi r = None
         /\ _handleBounds r = Ok tt
         /\ (forall v, _handleBounds (with_val r v) = Ok tt)
     | Raise _ => True
     end.
Proof.
  pose proof (inplace_is_plain op self other) as He.
  split; [exact He |].
  split; [rewrite He; apply plain_never_range_error |].
  destruct (binary (plain op) self other) as [r |] eqn:E; [| exact I].
  pose proof (binary_unbounded _ _ _ _ E) as Hu.
  split; [exact He |].
  split; [apply Hu |].
  split; [apply Hu |].
  split; [apply _handleBounds_unbounded; exact Hu |].
  intros v. apply _handleBounds_unbounded.
  destruct Hu as [Hlo Hhi]. split; assumption.
Qed.

(** ** True division *)

(** C7, as amended: [/] always ends in a [NotImplementedError], the
    unsupported-operation error also raised by the reflected power, and
    [/=] always ends in a [TypeError]; whatever the right operand is,
    neither returns a value and neither changes the left operand. *)
Theorem true_division_rejected {A : Type} (other : A) (self : fixbv) :
  __truediv__ other self = (self, Raise NotImplementedError)
  /\ __itruediv__ other self = (self, Raise TypeError)
  /\ is_unsupported_operation NotImplementedError = true
  /\ is_type_error TypeError = true
  /\ __rpow__ self (PInt 2) = Raise NotImplementedError.
Proof. repeat split. Qed.

(** ** Shifts *)

Lemma handleBounds_cases (self : fixbv) :
  (_handleBounds self = Ok tt /\ in_bounds self)
  \/ (_handleBounds self = Raise RangeError /\ ~ in_bounds self).
Proof.
  unfold _handleBounds, in_bounds.
  destruct (getmaxsi self) as [hi |], (getminsi self) as [lo |]; auto.
  destruct ((lo >? getsi self) || (getsi self >=? hi)) eqn:E.
  - right. split; [reflexivity | lia].
  - left. split; [reflexivity | lia].
Qed.

Lemma ilshift_int (x : fixbv) (n : Z) :
  __ilshift__ (PInt n) x
  = if n <? 0 then (x, Raise ValueError)
    else (with_val x (Z.shiftl (getsi x) n),
          _handleBounds (with_val x (Z.shiftl (getsi x) n))).
Proof.
  unfold __ilshift__, ilshift_si, mbind, lift, reading, check_bounds, setsi.
  cbn. rewrite Z.mul_1_r. unfold py_lshift.
  destruct (n <? 0); [reflexivity |]. cbn.
  destruct (_handleBounds _) as [[] | e]; reflexivity.
Qed.

Lemma irshift_int (x : fixbv) (n : Z) :
  __irshift__ (PInt n) x
  = if n <? 0 then (x, Raise ValueError)
    else (with_val x (Z.shiftr (getsi x) n),
          _handleBounds (with_val x (Z.shiftr (getsi x) n))).
Proof.
  unfold __irshift__, irshift_si, mbind, lift, reading, check_bounds, setsi.
  cbn. rewrite Z.mul_1_r. unfold py_rshift.
  destruct (n <? 0); [reflexivity |]. cbn.
  destruct (_handleBounds _) as [[] | e]; reflexivity.
Qed.

Lemma is_integer_nonneg_shift (f : fixbv) :
  0 <= getshift f ->
  is_integer f = true /\ __int__ f = Ok (getsi f * 2 ^ getshift f).
Proof.
  intros H. unfold is_integer, __int__.
  assert ((0 <=? getshift f) = true) as -> by lia. split; reflexivity.
Qed.

Lemma ilshift_fixbv (x f : fixbv) :
  0 <= getshift f ->
  let n := getsi f * 2 ^ getshift f in
  __ilshift__ (PFixbv f) x
  = if n <? 0 then (x, Raise ValueError)
    else (with_val x (Z.shiftl (getsi x) n),
          _handleBounds (with_val x (Z.shiftl (getsi x) n))).
Proof.
  intros H n. destruct (is_integer_nonneg_shift f H) as [Hi Hn].
  unfold __ilshift__, ilshift_si, mbind, lift, reading, check_bounds, setsi.
  rewrite Hi, Hn. fold n. unfold py_lshift.
  destruct (n <? 0); reflexivity.
Qed.

Lemma irshift_fixbv (x f : fixbv) :
  0 <= getshift f ->
  let n := getsi f * 2 ^ getshift f in
  __irshift__ (PFixbv f) x
  = if n <? 0 then (x, Raise ValueError)
    else (with_val x (Z.shiftr (getsi x) n),
          _handleBounds (with_val x (Z.shiftr (getsi x) n))).
Proof.
  intros H n. destruct (is_integer_nonneg_shift f H) as [Hi Hn].
  unfold __irshift__, irshift_si, mbind, lift, reading, check_bounds, setsi.
  rewrite Hi, Hn. fold n. unfold py_rshift.
  destruct (n <? 0); reflexivity.
Qed.

Lemma lshift_int (x : fixbv) (n : Z) :
  __lshift__ x (PInt n)
  = Ok (mkfixbv (getsi x) (getshift x + n) None None false false false)
  /\ __rshift__ x (PInt n)
     = Ok (mkfixbv (getsi x) (getshift x - n) None None false false false).
Proof.
  unfold __lshift__, __rshift__. cbn. rewrite Z.mul_1_r. split; reflexivity.
Qed.

Lemma lshift_fixbv (x f : fixbv) :
  0 <= getshift f ->
  let n := getsi f * 2 ^ getshift f in
  __lshift__ x (PFixbv f)
  = Ok (mkfixbv (getsi x) (getshift x + n) None None false false false)
  /\ __rshift__ x (PFixbv f)
     = Ok (mkfixbv (getsi x) (getshift x - n) None None false false false).
Proof.
  intros H n. destruct (is_integer_nonneg_shift f H) as [Hi Hn].
  unfold __lshift__, __rshift__, on_fixbv. rewrite Hi, Hn.
  split; reflexivity.
Qed.

Lemma shift_by_instance (x f : fixbv) :
  __lshift__ x (PFixbv f)
  = (if is_integer f
     then n <- __int__ f ;;
          Ok (mkfixbv (getsi x) (getshift x + n) None None false false false)
     else Raise TypeError)
  /\ __rshift__ x (PFixbv f)
     = (if is_integer f
        then n <- __int__ f ;;
             Ok (mkfixbv (getsi x) (getshift x - n) None None false false false)
        else Raise TypeError).
Proof.
  unfold __lshift__, __rshift__, on_fixbv.
  destruct (is_integer f); [| split; reflexivity].
  destruct (__int__ f) as [n | e]; split; reflexivity.
Qed.

Lemma inplace_shift_by_instance (x f : fixbv) :
  __ilshift__ (PFixbv f) x
  = (if is_integer f
     then match __int__ f with
          | Ok n =>
              if n <? 0 then (x, Raise ValueError)
              else (with_val x (Z.shiftl (getsi x) n),
                    _handleBounds (with_val x (Z.shiftl (getsi x) n)))
          | Raise e => (x, Raise e)
          end
     else (x, Raise TypeError))
  /\ __irshift__ (PFixbv f) x
     = (if is_integer f
        then match __int__ f with
             | Ok n =>
                 if n <? 0 then (x, Raise ValueError)
                 else (with_val x (Z.shiftr (getsi x) n),
                       _handleBounds (with_val x (Z.shiftr (getsi x) n)))
             | Raise e => (x, Raise e)
             end
        else (x, Raise TypeError)).
Proof.
  unfold __ilshift__, __irshift__, ilshift_si, irshift_si,
    mbind, lift, reading, check_bounds, setsi, py_lshift, py_rshift.
  destruct (is_integer f); [| split; reflexivity].
  destruct (__int__ f) as [n | e]; [| split; reflexivity].
  destruct (n <? 0); split; reflexivity.
Qed.


(** ** Indexing *)

Lemma lowest_bit (v : Z) : negb (Z.land v 1 =? 0) = Z.testbit v 0.
Proof.
  change 1 with (Z.ones 1). rewrite Z.land_ones by lia.
  rewrite Z.bit0_odd. change (2 ^ 1) with 2. rewrite Zmod_odd.
  destruct (Z.odd v); reflexivity.
Qed.

Lemma getitem_index (self : fixbv) (i : Z) :
  __getitem__ self (KIndex i)
  = if i - getshift self <? 0 then Raise ValueError
    else Ok (Bit (Z.testbit (getsi self) (i - getshift self))).
Proof.
  unfold __getitem__, py_rshift.
  destruct (Z.ltb_spec (i - getshift self) 0) as [H | H]; [reflexivity |].
  cbn [bind]. rewrite lowest_bit, Z.shiftr_spec by lia. reflexivity.
Qed.

Lemma setitem_index_one (self : fixbv) (i : Z) :
  fst (__setitem__ (KIndex i) (PInt 1) self)
  = if i <? 0 then self else with_val self (Z.lor (getsi self) (2 ^ i)).
Proof.
  unfold __setitem__, mbind, lift, reading, check_bounds, setsi, py_lshift.
  cbn. destruct (i <? 0); [reflexivity |]. cbn.
  rewrite Z.shiftl_1_l. reflexivity.
Qed.

(** C8: [__getitem__] subtracts the shift from the index it is given,
    [__setitem__] does not.  On an instance with shift 1 and stored
    integer 0, [x[1] = 1] sets stored bit 1 (not bit 1 - 1 = 0), so that
    [x[1]] then reads [False] and the bit shows up at index 2; and
    [x[3:1] = 3] followed by [x[3:1]] reads back 2.  In general reading
    index [i] tests stored bit [i - shift], and writing 1 at index [i]
    sets stored bit [i]. *)
Theorem setitem_addresses_stored_position :
  let x := mkfixbv 0 1 None None false false false in
  __setitem__ (KIndex 1) (PInt 1) x = (with_val x 2, Ok tt)
  /\ __getitem__ (with_val x 2) (KIndex 1) = Ok (Bit false)
  /\ __getitem__ (with_val x 2) (KIndex 2) = Ok (Bit true)
  /\ __setitem__ (KSlice (Some 3) (Some 1)) (PInt 3) x = (with_val x 6, Ok tt)
  /\ __getitem__ (with_val x 6) (KSlice (Some 3) (Some 1)) = Ok (Bits 2 2)
  /\ (forall (self : fixbv) (i : Z),
        __getitem__ self (KIndex i)
        = if i - getshift self <? 0 then Raise ValueError
          else Ok (Bit (Z.testbit (getsi self) (i - getshift self))))
  /\ (forall (self : fixbv) (i : Z),
        fst (__setitem__ (KIndex i) (PInt 1) self)
        = if i <? 0 then self
          else with_val self (Z.lor (getsi self) (2 ^ i))).
Proof.
  cbv zeta.
  repeat (split; [reflexivity |]).
  split; [exact getitem_index | exact setitem_index_one].
Qed.

(** ** The range invariant *)

Ltac by_bounds_check :=
  match goal with
  | |- context [_handleBounds ?s] =>
      destruct (handleBounds_cases s) as [[-> ?] | [-> ?]]; auto
  end.

Lemma setitem_validated (key : subscript) (val : pyval) :
  validated (__setitem__ key val).
Proof.
  intros self.
  unfold __setitem__, mbind, lift, reading, setsi, check_bounds, py_lshift, py_mod.
  destruct (py_int val) as [v | e]; [| auto].
  destruct key as [i | i j]; cbn [py_int].
  - destruct (v =? 1); [| destruct (v =? 0)];
      destruct (i <? 0); auto; by_bounds_check.
  - destruct j as [j |], i as [i |];
      repeat match goal with
        | |- context [if ?b then _ else _] => destruct b; auto
        end;
      by_bounds_check.
Qed.

Lemma ilshift_validated (other : pyval) : validated (__ilshift__ other).
Proof.
  intros self.
  assert (Hs : forall x : fixbv,
             match (_ <~ ilshift_si x ;; check_bounds) self with
             | (self', Ok _) => in_bounds self'
             | (self', Raise e) => self' = self \/ (e = RangeError /\ ~ in_bounds self')
             end).
  { intros x.
    unfold ilshift_si, mbind, lift, reading, setsi, check_bounds, py_lshift.
    destruct (is_integer x); [| auto].
    destruct (__int__ x) as [n | e]; [| auto].
    destruct (n <? 0); auto. cbn [py_int]. by_bounds_check. }
  unfold __ilshift__.
  destruct other as [o | n | m e | p |];
    try exact (Hs o);
    unfold mbind at 1; unfold mbind at 1, lift at 1;
    (destruct (fixbv_new _ 0) as [x | e']; [| auto]);
    specialize (Hs x);
    (destruct ((_ <~ ilshift_si x ;; check_bounds) self) as [self' [[] | e']];
     [| exact Hs]);
    unfold check_bounds; by_bounds_check.
Qed.

Lemma irshift_validated (other : pyval) : validated (__irshift__ other).
Proof.
  intros self.
  assert (Hs : forall x : fixbv,
             match (_ <~ irshift_si x ;; check_bounds) self with
             | (self', Ok _) => in_bounds self'
             | (self', Raise e) => self' = self \/ (e = RangeError /\ ~ in_bounds self')
             end).
  { intros x.
    unfold irshift_si, mbind, lift, reading, setsi, check_bounds, py_rshift.
    destruct (is_integer x); [| auto].
    destruct (__int__ x) as [n | e]; [| auto].
    destruct (n <? 0); auto. cbn [py_int]. by_bounds_check. }
  unfold __irshift__.
  destruct other as [o | n | m e | p |];
    try exact (Hs o);
    unfold mbind at 1; unfold mbind at 1, lift at 1;
    (destruct (fixbv_new _ 0) as [x | e']; [| auto]);
    specialize (Hs x);
    (destruct ((_ <~ irshift_si x ;; check_bounds) self) as [self' [[] | e']];
     [| exact Hs]);
    unfold check_bounds; by_bounds_check.
Qed.

Lemma init_in_bounds (val : pyval) (shift : Z) (min max : option pyval)
      (asfloat : asfloat_arg) :
  match __init__ val shift min max asfloat with
  | Ok self => in_bounds self
  | Raise _ => True
  end.
Proof.
  unfold __init__.
  destruct (negb _); [exact I |].
  destruct (match asfloat with ATriple _ _ _ => _ | AFlag _ => _ end)
    as [[fi fp] fv].
  match goal with
  | |- context [bind ?m _] => destruct m as [self | e]; [| exact I]
  end.
  cbn [bind].
  destruct (handleBounds_cases self) as [[-> H] | [-> H]]; [exact H | exact I].
Qed.

Lemma init_out_of_range (val lo hi : Z) (shift : Z) :
  lo < hi -> ~ lo <= val < hi ->
  __init__ (PInt val) shift (Some (PInt lo)) (Some (PInt hi)) (AFlag false)
  = Raise RangeError.
Proof.
  intros Hlt Hout. unfold __init__. cbn.
  assert ((lo <? hi) = true) as -> by lia. cbn.
  unfold _handleBounds. cbn.
  assert (((lo >? val) || (val >=? hi)) = true) as -> by lia.
  reflexivity.
Qed.

(** C4, as amended: when an instance is constructed it satisfies the
    range invariant (with both bounds set, lower bound <= stored integer
    < upper bound) or the construction ends in an error; bit and slice
    assignment and the in-place shifts [<<=] and [>>=] each either
    return with the invariant holding, or end in an error without having
    assigned anything, or end in the range error on the instance they
    have just moved out of range; the in-place arithmetic operators
    return an instance without bounds.  The setters of [si], [minsi] and
    [maxsi] assign what they are given and validate nothing. *)
Theorem mutators_validate_setters_do_not
  (key : subscript) (val other : pyval) (v : Z)
  (init : pyval) (shift : Z) (min max : option pyval) (asfloat : asfloat_arg)
  (op : inplace_op) (self : fixbv) :
  match __init__ init shift min max asfloat with
  | Ok new => in_bounds new
  | Raise _ => True
  end
  /\ validated (__setitem__ key val)
  /\ validated (__ilshift__ other)
  /\ validated (__irshift__ other)
  /\ match inplace op self other with
     | Ok r => getminsi r = None /\ getmaxsi r = None /\ in_bounds r
     | Raise _ => True
     end
  /\ setsi (PInt v) self = (with_val self v, Ok tt)
  /\ setminsi (Some (PInt v)) self = (with_min self (Some v), Ok tt)
  /\ setmaxsi (Some (PInt v)) self = (with_max self (Some v), Ok tt).
Proof.
  split; [apply init_in_bounds |].
  split; [apply setitem_validated |].
  split; [apply ilshift_validated |].
  split; [apply irshift_validated |].
  split; [| repeat split].
  rewrite inplace_is_plain.
  destruct (binary (plain op) self other) as [r |] eqn:E; [| exact I].
  destruct (binary_unbounded _ _ _ _ E) as [Hlo Hhi].
  repeat split; try assumption.
  unfold in_bounds. rewrite Hlo. exact I.
Qed.

End Properties.

(** ** The model on concrete instances *)

(** The instances below are run with the idealised double-precision
    primitives; none of the runs reaches them. *)

Example add_aligns_to_finer_grid :
  @__add__ exact_floats (plain_fixbv 3 (-1)) (PFixbv (plain_fixbv 1 1))
  = Ok (plain_fixbv 7 (-1)).
Proof. reflexivity. Qed.

Example mul_adds_shifts :
  @__mul__ exact_floats (bounded_fixbv 10 2 0 16) (PFixbv (bounded_fixbv 10 2 0 16))
  = Ok (plain_fixbv 100 4).
Proof. reflexivity. Qed.

Example init_checks_range :
  @__init__ exact_floats (PInt 5) 0 (Some (PInt 0)) (Some (PInt 4)) (AFlag false)
  = Raise RangeError
  /\ @__init__ exact_floats (PInt 1) 0 (Some (PInt 4)) (Some (PInt 4)) (AFlag false)
     = Raise AssertionError
  /\ @__init__ exact_floats (PInt 1) 0 (Some (PInt 0)) None (AFlag false)
     = Raise AssertionError
  /\ @__init__ exact_floats (PFloat 21 (-1)) (-2) None None (AFlag false)
     = Raise TypeError
  /\ @__init__ exact_floats (PFloat 21 (-1)) (-2) None None (AFlag true)
     = Ok (mkfixbv 42 (-2) None None true true true).
Proof. repeat split. Qed.

Example exact_widths :
  bitWidthOf 0 = 0 /\ bitWidthOf (-1) = 1 /\ bitWidthOf 3 = 3
  /\ @calc_nr_bits exact_floats 0 = 0
  /\ @calc_nr_bits exact_floats (-1) = 1
  /\ @calc_nr_bits exact_floats 3 = 3.
Proof. repeat split. Qed.

Example signed_on_a_bounded_instance :
  @signed exact_floats (bounded_fixbv 5 0 0 8) = Raise AttributeError
  /\ signedInterpretation (bounded_fixbv 5 0 0 8) = 5
  /\ @signed exact_floats (plain_fixbv (-3) 0) = Raise AttributeError
  /\ signedInterpretation (plain_fixbv (-3) 0) = -3.
Proof. repeat split. Qed.

(** C4, counterexample: on the instance [fixbv(0, 0, min=0, max=4)] the
    assignment [x.si = 100] returns normally and leaves the stored
    integer at 100, outside the bounds, which are both still set. *)
Lemma setsi_escapes_the_bounds :
  let x := bounded_fixbv 0 0 0 4 in
  @__init__ exact_floats (PInt 0) 0 (Some (PInt 0)) (Some (PInt 4)) (AFlag false)
  = Ok x
  /\ @setsi exact_floats (PInt 100) x = (bounded_fixbv 100 0 0 4, Ok tt)
  /\ ~ in_bounds (bounded_fixbv 100 0 0 4)
  /\ ~ validated (@setsi exact_floats (PInt 100)).
Proof.
  cbv zeta.
  split; [reflexivity |]. split; [reflexivity |].
  assert (H : ~ in_bounds (bounded_fixbv 100 0 0 4)) by (cbn; lia).
  split; [exact H |].
  intros Hv. specialize (Hv (bounded_fixbv 0 0 0 4)). cbn in Hv. lia.
Qed.


(** C7, counterexample: [x / 1] ends in a [NotImplementedError], which is
    not a type error. *)
Lemma truediv_is_not_a_type_error :
  __truediv__ (PInt 1) (plain_fixbv 1 0)
  = (plain_fixbv 1 0, Raise NotImplementedError)
  /\ is_type_error NotImplementedError = false.
Proof. split; reflexivity. Qed.

(** * Further properties of the module *)

Section Arithmetic.

Context {FM : FloatModel} {FD : FloatDivision}.

(** ** Normal forms on two instances *)

Lemma add_fixbv_norm (x y : fixbv) :
  __add__ x (PFixbv y)
  = Ok (plain_fixbv (on_common_grid x y + on_common_grid y x)
                    (Z.min (getshift x) (getshift y))).
Proof.
  unfold __add__, on_fixbv, on_common_grid. rewrite align_at_min.
  rewrite (Z.min_comm (getshift y)). reflexivity.
Qed.

Lemma sub_fixbv_norm (x y : fixbv) :
  __sub__ x (PFixbv y)
  = Ok (plain_fixbv (on_common_grid x y - on_common_grid y x)
                    (Z.min (getshift x) (getshift y))).
Proof.
  unfold __sub__, on_fixbv, on_common_grid. rewrite align_at_min.
  rewrite (Z.min_comm (getshift y)). reflexivity.
Qed.

Lemma mul_fixbv_norm (x y : fixbv) :
  __mul__ x (PFixbv y)
  = Ok (plain_fixbv (getsi x * getsi y) (getshift x + getshift y)).
Proof. reflexivity. Qed.

Lemma compare_fixbv_norm (x y : fixbv) :
  __eq__ x (PFixbv y) = Ok (on_common_grid x y =? on_common_grid y x)
  /\ __lt__ x (PFixbv y) = Ok (on_common_grid x y <? on_common_grid y x)
  /\ __le__ x (PFixbv y) = Ok (on_common_grid x y <=? on_common_grid y x).
Proof.
  unfold __eq__, __lt__, __le__, on_fixbv, on_common_grid.
  rewrite align_at_min, (Z.min_comm (getshift y)).
  repeat split.
Qed.

(** ** Real values *)

Lemma realValueOf_plain (si shift : Z) :
  realValueOf (plain_fixbv si shift) = realValue (si, shift).
Proof. reflexivity. Qed.

Lemma realValue_common_grid (x y : fixbv) :
  Qeq (realValue (on_common_grid x y, Z.min (getshift x) (getshift y)))
      (realValueOf x).
Proof. apply realValue_at_min. lia. Qed.

Lemma realValue_common_grid' (x y : fixbv) :
  Qeq (realValue (on_common_grid y x, Z.min (getshift x) (getshift y)))
      (realValueOf y).
Proof. rewrite Z.min_comm. apply realValue_common_grid. Qed.

Lemma realValue_add (a b t : Z) :
  Qeq (realValue (a + b, t)) (realValue (a, t) + realValue (b, t)).
Proof.
  unfold realValue; cbn [fst snd]. rewrite inject_Z_plus. ring.
Qed.

Lemma realValue_opp (a t : Z) :
  Qeq (realValue (- a, t)) (- realValue (a, t)).
Proof.
  unfold realValue; cbn [fst snd]. rewrite inject_Z_opp. ring.
Qed.

Lemma realValue_mul (a b s t : Z) :
  Qeq (realValue (a * b, s + t)) (realValue (a, s) * realValue (b, t)).
Proof.
  unfold realValue; cbn [fst snd].
  rewrite inject_Z_mult, Qpower_plus by discriminate. ring.
Qed.

Lemma pow2_positive (t : Z) : (0 < Qpower (2 # 1) t)%Q.
Proof. apply Qpower_0_lt. reflexivity. Qed.

Lemma realValue_lt (a b t : Z) :
  (realValue (a, t) < realValue (b, t))%Q <-> a < b.
Proof.
  unfold realValue; cbn [fst snd].
  rewrite Qmult_lt_r by apply pow2_positive.
  rewrite <- Zlt_Qlt. reflexivity.
Qed.

Lemma realValue_le (a b t : Z) :
  (realValue (a, t) <= realValue (b, t))%Q <-> a <= b.
Proof.
  unfold realValue; cbn [fst snd].
  rewrite Qmult_le_r by apply pow2_positive.
  rewrite <- Zle_Qle. reflexivity.
Qed.

(** ** Alignment, once more *)

(** X1: [alignvalues] does not depend on the order of its arguments
    (swapping them swaps the results), and it leaves a pair of results
    as it is when applied to them again. *)
Theorem alignvalues_symmetric_idempotent (a b : Z * Z) :
  alignvalues b a = (snd (alignvalues a b), fst (alignvalues a b))
  /\ alignvalues (fst (alignvalues a b)) (snd (alignvalues a b))
     = alignvalues a b.
Proof.
  destruct a as [a_val a_shift], b as [b_val b_shift].
  rewrite !alignvalues_cases.
  destruct (Z.leb_spec b_shift a_shift) as [Hba | Hba],
           (Z.leb_spec a_shift b_shift) as [Hab | Hab];
    cbn [fst snd]; try lia.
  - assert (a_shift = b_shift) as -> by lia.
    rewrite alignvalues_cases, Z.leb_refl, Z.sub_diag, Z.pow_0_r, !Z.mul_1_r.
    split; reflexivity.
  - rewrite alignvalues_cases, Z.leb_refl, Z.sub_diag, Z.pow_0_r, !Z.mul_1_r.
    split; reflexivity.
  - rewrite alignvalues_cases, Z.leb_refl, Z.sub_diag, Z.pow_0_r, !Z.mul_1_r.
    split; reflexivity.
Qed.

(** ** Exact arithmetic *)

(** X2: on two instances [+] and [-] always return an instance; its
    shift is the smaller of the two shifts and its real value is exactly
    the sum, respectively the difference, of the two real values. *)
Theorem add_sub_exact (x y : fixbv) :
  exists s d : fixbv,
    __add__ x (PFixbv y) = Ok s
    /\ __sub__ x (PFixbv y) = Ok d
    /\ getshift s = Z.min (getshift x) (getshift y)
    /\ getshift d = Z.min (getshift x) (getshift y)
    /\ Qeq (realValueOf s) (realValueOf x + realValueOf y)
    /\ Qeq (realValueOf d) (realValueOf x - realValueOf y).
Proof.
  eexists _, _.
  split; [apply add_fixbv_norm |]. split; [apply sub_fixbv_norm |].
  split; [reflexivity |]. split; [reflexivity |].
  rewrite !realValueOf_plain.
  split.
  - rewrite realValue_add, realValue_common_grid, realValue_common_grid'.
    reflexivity.
  - unfold Z.sub. rewrite realValue_add, realValue_opp,
      realValue_common_grid, realValue_common_grid'.
    reflexivity.
Qed.

(** X3: on two instances [*] always returns an instance; its shift is
    the sum of the two shifts and its real value is exactly the product
    of the two real values. *)
Theorem mul_exact (x y : fixbv) :
  exists p : fixbv,
    __mul__ x (PFixbv y) = Ok p
    /\ getshift p = getshift x + getshift y
    /\ Qeq (realValueOf p) (realValueOf x * realValueOf y).
Proof.
  eexists. split; [apply mul_fixbv_norm |]. split; [reflexivity |].
  rewrite realValueOf_plain. apply realValue_mul.
Qed.

Lemma realValue_pow (a e n : Z) :
  0 <= n -> Qeq (realValue (a ^ n, e * n)) (Qpower (realValue (a, e)) n).
Proof.
  intros Hn. unfold realValue; cbn [fst snd].
  rewrite Qmult_power, Zpower_Qpower, Qpower_mult by assumption.
  reflexivity.
Qed.

(** X4: [x ** n] for an integer [n >= 0] returns an instance whose real
    value is exactly the [n]-th power of the real value of [x] (its
    shift is [n] times the shift of [x]); for [n < 0] no instance is
    returned; an instance or a float that is not integer-valued is
    rejected as the power with a [TypeError]. *)
Theorem pow_exact (x o : fixbv) (n m e : Z) :
  (if n <? 0
   then __pow__ x (PInt n) = Raise (neg_power_exn (getsi x) n)
   else exists r : fixbv,
          __pow__ x (PInt n) = Ok r
          /\ getshift r = getshift x * n
          /\ Qeq (realValueOf r) (Qpower (realValueOf x) n))
  /\ (if is_integer o then True else __pow__ x (PFixbv o) = Raise TypeError)
  /\ (if float_is_integer m e then True
      else __pow__ x (PFloat m e) = Raise TypeError).
Proof.
  split; [| split].
  - unfold __pow__. cbn [bind py_int].
    destruct (Z.ltb_spec n 0) as [Hn | Hn].
    + assert ((0 <=? n) = false) as -> by lia. reflexivity.
    + assert ((0 <=? n) = true) as -> by lia.
      rewrite fixbv_new_int. eexists.
      split; [reflexivity |]. split; [reflexivity |].
      apply realValue_pow. assumption.
  - unfold __pow__. destruct (is_integer o); [exact I | reflexivity].
  - unfold __pow__. destruct (float_is_integer m e); [exact I | reflexivity].
Qed.

Lemma on_common_grid_zero (x y : fixbv) :
  on_common_grid x y = 0 <-> getsi x = 0.
Proof.
  unfold on_common_grid.
  assert (0 < 2 ^ (getshift x - Z.min (getshift x) (getshift y)))
    by (apply Z.pow_pos_nonneg; lia).
  nia.
Qed.

Lemma on_common_grid_sign (x y : fixbv) :
  (0 < on_common_grid x y <-> 0 < getsi x)
  /\ (on_common_grid x y < 0 <-> getsi x < 0).
Proof.
  unfold on_common_grid.
  assert (0 < 2 ^ (getshift x - Z.min (getshift x) (getshift y)))
    by (apply Z.pow_pos_nonneg; lia).
  nia.
Qed.

Lemma floordiv_mod_norm (x y : fixbv) :
  getsi y <> 0 ->
  __floordiv__ x (PFixbv y)
  = Ok (plain_fixbv (on_common_grid x y / on_common_grid y x) 0)
  /\ __mod__ x (PFixbv y)
     = Ok (plain_fixbv (on_common_grid x y mod on_common_grid y x)
                       (Z.min (getshift x) (getshift y))).
Proof.
  intros Hy.
  assert (Hy' : on_common_grid y x <> 0) by (rewrite on_common_grid_zero; exact Hy).
  apply Z.eqb_neq in Hy'.
  unfold on_common_grid in *. rewrite (Z.min_comm (getshift y)) in *.
  unfold __floordiv__, __mod__, on_fixbv.
  rewrite align_at_min.
  cbn [bind getsi getshift _val _shift] in *. unfold py_floordiv, py_mod.
  rewrite Hy'. split; reflexivity.
Qed.

Lemma division_by_zero (x y : fixbv) :
  getsi y = 0 ->
  __floordiv__ x (PFixbv y) = Raise ZeroDivisionError
  /\ __mod__ x (PFixbv y) = Raise ZeroDivisionError.
Proof.
  intros Hy.
  unfold __floordiv__, __mod__, on_fixbv.
  rewrite align_at_min.
  cbn [bind getsi getshift _val _shift]. unfold py_floordiv, py_mod.
  fold (getsi y). rewrite Hy, Z.mul_0_l. split; reflexivity.
Qed.

Lemma realValue_scale (q a t : Z) :
  Qeq (realValue (q * a, t)) (inject_Z q * realValue (a, t)).
Proof.
  unfold realValue; cbn [fst snd]. rewrite inject_Z_mult. ring.
Qed.

(** X5: for a divisor whose stored integer is not 0, [//] and [%] both
    return; the quotient is an integer (shift 0), the dividend is exactly
    quotient times divisor plus remainder, and the remainder lies
    between 0 and the divisor, 0 included and the divisor excluded, on
    the side of the divisor's sign.  For a divisor with stored integer 0
    both end in a [ZeroDivisionError]. *)
Theorem floordiv_mod_identity (x y : fixbv) :
  if getsi y =? 0
  then __floordiv__ x (PFixbv y) = Raise ZeroDivisionError
       /\ __mod__ x (PFixbv y) = Raise ZeroDivisionError
  else exists q r : fixbv,
         __floordiv__ x (PFixbv y) = Ok q
         /\ __mod__ x (PFixbv y) = Ok r
         /\ getshift q = 0
         /\ Qeq (realValueOf x)
                (inject_Z (getsi q) * realValueOf y + realValueOf r)
         /\ (if 0 <? getsi y
             then (0 <= realValueOf r)%Q /\ (realValueOf r < realValueOf y)%Q
             else (realValueOf y < realValueOf r)%Q /\ (realValueOf r <= 0)%Q).
Proof.
  destruct (Z.eqb_spec (getsi y) 0) as [Hy | Hy].
  { apply division_by_zero; assumption. }
  destruct (floordiv_mod_norm x y Hy) as [Hq Hr].
  eexists _, _.
  split; [exact Hq |]. split; [exact Hr |]. split; [reflexivity |].
  rewrite !realValueOf_plain. cbn [getsi plain_fixbv _val].
  set (X := on_common_grid x y). set (Y := on_common_grid y x).
  set (t := Z.min (getshift x) (getshift y)).
  assert (HY : Y <> 0) by (subst Y; rewrite on_common_grid_zero; exact Hy).
  assert (Hx : Qeq (realValue (X, t)) (realValueOf x))
    by apply realValue_common_grid.
  assert (Hyv : Qeq (realValue (Y, t)) (realValueOf y))
    by apply realValue_common_grid'.
  assert (H0 : Qeq (realValue (0, t)) 0)
    by (unfold realValue; cbn [fst snd]; ring).
  split.
  - rewrite <- Hx, <- Hyv, <- realValue_scale, <- realValue_add.
    rewrite Z.mul_comm, <- Z.div_mod by assumption. reflexivity.
  - destruct (on_common_grid_sign y x) as [Hpos Hneg]. fold Y in Hpos, Hneg.
    destruct (Z.ltb_spec 0 (getsi y)) as [Hs | Hs].
    + pose proof (Z.mod_pos_bound X Y ltac:(lia)) as Hb.
      rewrite <- Hyv, <- H0. rewrite realValue_le, realValue_lt. lia.
    + pose proof (Z.mod_neg_bound X Y ltac:(lia)) as Hb.
      rewrite <- Hyv, <- H0. rewrite realValue_le, realValue_lt. lia.
Qed.

(** ** Comparison *)

(** X6: on two instances the four ordering operators always answer, and
    [<], [<=], [>], [>=] answer [True] exactly when the real values stand
    in that order. *)
Theorem ordering_follows_real_values (x y : fixbv) :
  exists lt le gt ge : bool,
    __lt__ x (PFixbv y) = Ok lt
    /\ __le__ x (PFixbv y) = Ok le
    /\ __gt__ x (PFixbv y) = Ok gt
    /\ __ge__ x (PFixbv y) = Ok ge
    /\ (lt = true <-> (realValueOf x < realValueOf y)%Q)
    /\ (le = true <-> (realValueOf x <= realValueOf y)%Q)
    /\ (gt = true <-> (realValueOf y < realValueOf x)%Q)
    /\ (ge = true <-> (realValueOf y <= realValueOf x)%Q).
Proof.
  destruct (compare_fixbv_norm x y) as (_ & Hlt & Hle).
  unfold __gt__, __ge__. rewrite Hlt, Hle. cbn [bind].
  eexists _, _, _, _.
  do 4 (split; [reflexivity |]).
  rewrite <- !(realValue_common_grid x y), <- !(realValue_common_grid' x y).
  rewrite !realValue_lt, !realValue_le.
  repeat split; intros H; destruct (Z.ltb_spec (on_common_grid x y) (on_common_grid y x)),
    (Z.leb_spec (on_common_grid x y) (on_common_grid y x));
    cbn in *; try lia; try discriminate; reflexivity.
Qed.

Lemma eq_fixbv_real (x y : fixbv) :
  exists b : bool,
    __eq__ x (PFixbv y) = Ok b
    /\ (b = true <-> Qeq (realValueOf x) (realValueOf y)).
Proof.
  destruct (compare_fixbv_norm x y) as (He & _).
  eexists. split; [exact He |].
  rewrite <- (realValue_common_grid x y), <- (realValue_common_grid' x y).
  rewrite realValue_same_shift. apply Z.eqb_eq.
Qed.

(** X7: [==] on instances is an equivalence: every instance equals
    itself, the answer does not depend on the order of the operands, and
    two instances equal to a third are equal; [!=] answers the opposite
    of [==]. *)
Theorem eq_is_an_equivalence (x y z : fixbv) :
  __eq__ x (PFixbv x) = Ok true
  /\ __eq__ x (PFixbv y) = __eq__ y (PFixbv x)
  /\ (exists a b c : bool,
        __eq__ x (PFixbv y) = Ok a
        /\ __eq__ y (PFixbv z) = Ok b
        /\ __eq__ x (PFixbv z) = Ok c
        /\ implb (a && b) c = true
        /\ __ne__ x (PFixbv y) = Ok (negb a)).
Proof.
  split; [| split].
  - destruct (compare_fixbv_norm x x) as (-> & _). now rewrite Z.eqb_refl.
  - destruct (compare_fixbv_norm x y) as (-> & _).
    destruct (compare_fixbv_norm y x) as (-> & _).
    now rewrite Z.eqb_sym.
  - destruct (eq_fixbv_real x y) as (a & Ha & Hab).
    destruct (eq_fixbv_real y z) as (b & Hb & Hbc).
    destruct (eq_fixbv_real x z) as (c & Hc & Hac).
    exists a, b, c. repeat (split; [assumption |]).
    split.
    + destruct a, b, c; try reflexivity. cbn.
      apply Hac. transitivity (realValueOf y); [apply Hab | apply Hbc]; reflexivity.
    + unfold __ne__. rewrite Ha. reflexivity.
Qed.

(** ** Algebraic laws *)

Lemma plain_fixbv_real_inj (a b s t : Z) :
  s = t -> Qeq (realValue (a, s)) (realValue (b, t)) ->
  plain_fixbv a s = plain_fixbv b t.
Proof.
  intros <- H. apply realValue_same_shift in H. now subst.
Qed.

Lemma add_plain (a s : Z) (y : fixbv) :
  exists r : Z,
    __add__ (plain_fixbv a s) (PFixbv y)
    = Ok (plain_fixbv r (Z.min s (getshift y)))
    /\ __add__ y (PFixbv (plain_fixbv a s))
       = Ok (plain_fixbv r (Z.min s (getshift y)))
    /\ Qeq (realValue (r, Z.min s (getshift y)))
           (realValue (a, s) + realValueOf y).
Proof.
  eexists. split; [apply add_fixbv_norm |]. split.
  - rewrite add_fixbv_norm. cbn [getshift plain_fixbv _shift].
    rewrite Z.add_comm, Z.min_comm. reflexivity.
  - rewrite realValue_add.
    rewrite (realValue_common_grid (plain_fixbv a s) y).
    rewrite (realValue_common_grid' (plain_fixbv a s) y).
    reflexivity.
Qed.

(** X8: [+] on instances is commutative and associative, not only in
    value but in the instance returned (stored integer and shift): the
    order and the grouping of a sum never show in its result. *)
Theorem add_commutative_associative (x y z : fixbv) :
  __add__ x (PFixbv y) = __add__ y (PFixbv x)
  /\ (s <- __add__ x (PFixbv y) ;; __add__ s (PFixbv z))
     = (s <- __add__ y (PFixbv z) ;; __add__ x (PFixbv s)).
Proof.
  split.
  - rewrite !add_fixbv_norm. now rewrite Z.add_comm, Z.min_comm.
  - rewrite !add_fixbv_norm. cbn [bind].
    destruct (add_plain (on_common_grid x y + on_common_grid y x)
                        (Z.min (getshift x) (getshift y)) z)
      as (r1 & -> & _ & H1).
    destruct (add_plain (on_common_grid y z + on_common_grid z y)
                        (Z.min (getshift y) (getshift z)) x)
      as (r2 & _ & -> & H2).
    f_equal. apply plain_fixbv_real_inj; [lia |].
    rewrite H1, H2, !realValue_add.
    rewrite (realValue_common_grid x y), (realValue_common_grid' x y).
    rewrite (realValue_common_grid y z), (realValue_common_grid' y z).
    ring.
Qed.

(** X9: [*] on instances is commutative and associative and distributes
    over [+], again in the instance returned and not only in value. *)
Theorem mul_commutative_associative_distributive (x y z : fixbv) :
  __mul__ x (PFixbv y) = __mul__ y (PFixbv x)
  /\ (p <- __mul__ x (PFixbv y) ;; __mul__ p (PFixbv z))
     = (p <- __mul__ y (PFixbv z) ;; __mul__ x (PFixbv p))
  /\ (s <- __add__ y (PFixbv z) ;; __mul__ x (PFixbv s))
     = (p <- __mul__ x (PFixbv y) ;; q <- __mul__ x (PFixbv z) ;;
        __add__ p (PFixbv q)).
Proof.
  split; [| split].
  - rewrite !mul_fixbv_norm. now rewrite Z.mul_comm, Z.add_comm.
  - rewrite !mul_fixbv_norm. cbn [bind]. rewrite !mul_fixbv_norm.
    cbn [getsi getshift plain_fixbv _val _shift].
    now rewrite Z.mul_assoc, Z.add_assoc.
  - rewrite !mul_fixbv_norm, add_fixbv_norm. cbn [bind].
    rewrite mul_fixbv_norm.
    destruct (add_plain (getsi x * getsi y) (getshift x + getshift y)
                        (plain_fixbv (getsi x * getsi z) (getshift x + getshift z)))
      as (r & -> & _ & Hr).
    cbn [getsi getshift plain_fixbv _val _shift] in *.
    f_equal. apply plain_fixbv_real_inj; [lia |].
    rewrite Hr, realValueOf_plain, !realValue_mul, realValue_add.
    pose proof (realValue_common_grid y z) as Hy.
    pose proof (realValue_common_grid' y z) as Hz.
    unfold getshift in Hy, Hz. rewrite Hy, Hz.
    unfold realValueOf, getsi, getshift. ring.
Qed.

(** X10: unary [-], [+] and [abs] always return an instance on the
    grid of their operand, without its bounds, whose real value is the
    negated, the same, respectively the absolute real value; and
    [x - y] is the very instance [x + (-y)]. *)
Theorem sign_operators_exact (x y : fixbv) :
  exists n p a : fixbv,
    __neg__ x = Ok n /\ __pos__ x = Ok p /\ __abs__ x = Ok a
    /\ getshift n = getshift x /\ getshift p = getshift x
    /\ getshift a = getshift x
    /\ unbounded n /\ unbounded p /\ unbounded a
    /\ Qeq (realValueOf n) (- realValueOf x)
    /\ Qeq (realValueOf p) (realValueOf x)
    /\ Qeq (realValueOf a) (Qabs (realValueOf x))
    /\ (m <- __neg__ y ;; __add__ x (PFixbv m)) = __sub__ x (PFixbv y).
Proof.
  unfold __neg__, __pos__, __abs__. rewrite !fixbv_new_int.
  eexists _, _, _.
  do 3 (split; [reflexivity |]). do 3 (split; [reflexivity |]).
  do 3 (split; [split; reflexivity |]).
  split; [apply realValue_opp |]. split; [reflexivity |].
  split.
  - unfold realValueOf, realValue; cbn [fst snd getsi getshift plain_fixbv _val _shift].
    rewrite Qabs_Qmult, (Qabs_pos (Qpower _ _)) by (apply Qlt_le_weak, pow2_positive).
    reflexivity.
  - cbn [bind]. rewrite add_fixbv_norm, sub_fixbv_norm.
    unfold on_common_grid. cbn [getsi getshift _val _shift].
    f_equal. f_equal. rewrite Z.mul_opp_l. reflexivity.
Qed.

(** ** Rescaling to another grid *)

(** X11: [x.fixto(g)] always returns an instance without bounds on the
    grid of [g]; its real value is the largest multiple of [2**g.shift]
    that does not exceed the real value of [x] (rounding toward minus
    infinity), so it is the real value of [x] itself whenever the grid
    of [g] is at least as fine; applying [fixto(g)] again changes
    nothing. *)
Theorem fixto_rounds_down (x g : fixbv) :
  exists r : fixbv,
    fixto x g = Ok r
    /\ getshift r = getshift g
    /\ unbounded r
    /\ Qle (realValueOf r) (realValueOf x)
    /\ Qlt (realValueOf x) (realValue (getsi r + 1, getshift g))
    /\ (if getshift g <=? getshift x
        then Qeq (realValueOf r) (realValueOf x) else True)
    /\ fixto r g = Ok r.
Proof.
  unfold fixto.
  destruct (Z.geb_spec (getshift x - getshift g) 0) as [Hs | Hs].
  - cbn [bind]. rewrite fixbv_new_int. eexists.
    split; [reflexivity |]. split; [reflexivity |]. split; [split; reflexivity |].
    assert (He : Qeq (realValue (getsi x * 2 ^ (getshift x - getshift g), getshift g))
                     (realValueOf x)) by (apply realValue_at_min; lia).
    unfold realValueOf at 1 3. cbn [getsi getshift _val _shift].
    split; [rewrite He; apply Qle_refl |].
    split; [rewrite <- He; apply realValue_lt; lia |].
    split; [destruct (_ <=? _); [exact He | exact I] |].
    rewrite Z.sub_diag. cbn. rewrite Z.mul_1_r. reflexivity.
  - set (k := - (getshift x - getshift g)).
    assert (Hk : 0 < k) by (subst k; lia).
    assert (Hp : 0 < 2 ^ k) by (apply Z.pow_pos_nonneg; lia).
    unfold py_floordiv.
    assert ((2 ^ k =? 0) = false) as -> by lia.
    cbn [bind]. rewrite fixbv_new_int. eexists.
    split; [reflexivity |]. split; [reflexivity |]. split; [split; reflexivity |].
    unfold realValueOf. cbn [getsi getshift _val _shift].
    fold (getsi x) (getshift x) (getshift g).
    assert (Hg : forall v, Qeq (realValue (v, getshift g))
                               (realValue (v * 2 ^ k, getshift x))).
    { intros v. symmetry.
      replace (getshift x) with (getshift g - k) by (subst k; lia).
      apply realValue_rescale. lia. }
    pose proof (Z.div_mod (getsi x) (2 ^ k) ltac:(lia)) as Hd.
    pose proof (Z.mod_pos_bound (getsi x) (2 ^ k) Hp) as Hm.
    split; [rewrite Hg; apply realValue_le; nia |].
    split; [rewrite Hg; apply realValue_lt; nia |].
    split; [destruct (Z.leb_spec (getshift g) (getshift x)); [lia | exact I] |].
    rewrite Z.sub_diag. cbn. rewrite Z.mul_1_r. reflexivity.
Qed.

(** X12: [is_integer] answers [True] exactly when the real value of the
    instance is an integer. *)
Theorem is_integer_iff_real_value_integral (x : fixbv) :
  is_integer x = true <-> exists z : Z, Qeq (realValueOf x) (inject_Z z).
Proof.
  assert (H1 : forall z, Qeq (realValue (z, 0)) (inject_Z z))
    by (intros z; unfold realValue; cbn; ring).
  unfold is_integer.
  destruct (Z.leb_spec 0 (getshift x)) as [Hs | Hs].
  - split; [intros _ | reflexivity].
    exists (getsi x * 2 ^ (getshift x - 0)).
    rewrite <- H1. symmetry. apply realValue_at_min. assumption.
  - set (k := - getshift x). assert (Hk : 0 < k) by (subst k; lia).
    assert (Hp : 0 < 2 ^ k) by (apply Z.pow_pos_nonneg; lia).
    assert (Hz : forall z, Qeq (realValue (z * 2 ^ k, getshift x)) (inject_Z z)).
    { intros z. rewrite <- H1.
      replace (getshift x) with (0 - k) by (subst k; lia).
      apply realValue_rescale. lia. }
    fold (getsi x). rewrite Z.eqb_eq. split.
    + intros Hm. exists (getsi x / 2 ^ k).
      rewrite <- Hz. unfold realValueOf.
      apply realValue_same_shift.
      pose proof (Z.div_mod (getsi x) (2 ^ k) ltac:(lia)). lia.
    + intros [z Hv]. rewrite <- Hz in Hv.
      apply realValue_same_shift in Hv. rewrite Hv.
      apply Z.mod_mul. lia.
Qed.

(** ** Shifts *)

(** X13: [x << n] multiplies the real value of [x] by [2**n] and
    [x >> n] divides it by [2**n], exactly, for an integer [n] of either
    sign; shifting back returns the stored integer and the shift of [x]. *)
Theorem shift_scales_real_value (x : fixbv) (n : Z) :
  exists l r : fixbv,
    __lshift__ x (PInt n) = Ok l
    /\ __rshift__ x (PInt n) = Ok r
    /\ Qeq (realValueOf l) (realValueOf x * Qpower (2 # 1) n)
    /\ Qeq (realValueOf r) (realValueOf x / Qpower (2 # 1) n)
    /\ __rshift__ l (PInt n) = Ok (plain_fixbv (getsi x) (getshift x))
    /\ __lshift__ r (PInt n) = Ok (plain_fixbv (getsi x) (getshift x)).
Proof.
  destruct (lshift_int x n) as [Hl Hr].
  eexists _, _. split; [exact Hl |]. split; [exact Hr |].
  unfold realValueOf, realValue;
    cbn [fst snd getsi getshift plain_fixbv _val _shift].
  split; [| split; [| split]].
  - rewrite Qpower_plus by discriminate. ring.
  - unfold Z.sub. rewrite Qpower_plus, Qpower_opp by discriminate.
    unfold Qdiv. ring.
  - match goal with |- __rshift__ ?l _ = _ =>
      destruct (lshift_int l n) as [_ ->] end.
    unfold plain_fixbv, getsi, getshift. cbn [_val _shift]. f_equal. f_equal. lia.
  - match goal with |- __lshift__ ?r _ = _ =>
      destruct (lshift_int r n) as [-> _] end.
    unfold plain_fixbv, getsi, getshift. cbn [_val _shift]. f_equal. f_equal. lia.
Qed.

Lemma with_val_same (x : fixbv) : with_val x (getsi x) = x.
Proof. destruct x. reflexivity. Qed.

Lemma with_val_twice (x : fixbv) (a b : Z) :
  with_val (with_val x a) b = with_val x b.
Proof. reflexivity. Qed.

(** X14: on an instance without bounds and for [n >= 0], [x <<= n]
    followed by [x >>= n] restores the instance, while [x >>= n]
    followed by [x <<= n] clears the [n] lowest stored bits: it leaves
    the stored integer minus its remainder modulo [2**n]. *)
Theorem inplace_shift_round_trip (x : fixbv) (n : Z) :
  unbounded x -> 0 <= n ->
  (_ <~ __ilshift__ (PInt n) ;; __irshift__ (PInt n)) x = (x, Ok tt)
  /\ (_ <~ __irshift__ (PInt n) ;; __ilshift__ (PInt n)) x
     = (with_val x (getsi x - getsi x mod 2 ^ n), Ok tt).
Proof.
  intros Hu Hn.
  assert (Hb : forall v, _handleBounds (with_val x v) = Ok tt).
  { intros v. apply _handleBounds_unbounded. destruct Hu. split; assumption. }
  assert (Hp : 0 < 2 ^ n) by (apply Z.pow_pos_nonneg; lia).
  unfold mbind. rewrite ilshift_int, irshift_int.
  assert ((n <? 0) = false) as -> by lia.
  rewrite !Hb, ilshift_int, irshift_int.
  assert ((n <? 0) = false) as -> by lia.
  rewrite !with_val_twice, !Hb.
  cbn [getsi with_val _val]. fold (getsi x).
  rewrite Z.shiftl_mul_pow2, !Z.shiftr_div_pow2, Z.shiftl_mul_pow2 by assumption.
  split; f_equal.
  - rewrite Z.div_mul by lia. apply with_val_same.
  - f_equal. pose proof (Z.div_mod (getsi x) (2 ^ n) ltac:(lia)). lia.
Qed.

(** ** Truth value and operand kinds *)

(** X15: [bool(x)] is [False] exactly when the real value of [x] is 0,
    and exactly when [x == 0] answers [True]. *)
Theorem bool_is_nonzero (x : fixbv) :
  (__bool__ x = false <-> Qeq (realValueOf x) 0)
  /\ __eq__ x (PInt 0) = Ok (negb (__bool__ x)).
Proof.
  unfold __bool__. split.
  - assert (H0 : Qeq (realValue (0, getshift x)) 0)
      by (unfold realValue; cbn [fst snd]; ring).
    rewrite <- H0. unfold realValueOf. rewrite realValue_same_shift.
    rewrite Bool.negb_false_iff. apply Z.eqb_eq.
  - change (__eq__ x (PInt 0)) with (__eq__ x (PFixbv (plain_fixbv 0 0))).
    destruct (compare_fixbv_norm x (plain_fixbv 0 0)) as (-> & _).
    unfold on_common_grid at 2. cbn [getsi plain_fixbv _val]. rewrite Z.mul_0_l.
    rewrite Bool.negb_involutive. f_equal.
    destruct (Z.eqb_spec (getsi x) 0) as [H | H];
      [apply Z.eqb_eq | apply Z.eqb_neq]; rewrite on_common_grid_zero; assumption.
Qed.


End Arithmetic.

Section Indexing.

Context {FM : FloatModel}.

Lemma setitem_index_bit (x : fixbv) (i : Z) (b : bool) :
  0 <= i ->
  let si' := if b then Z.lor (getsi x) (2 ^ i)
             else Z.land (getsi x) (Z.lnot (2 ^ i)) in
  __setitem__ (KIndex i) (PInt (if b then 1 else 0)) x
  = (with_val x si', _handleBounds (with_val x si')).
Proof.
  intros Hi.
  unfold __setitem__, mbind, lift, reading, check_bounds, setsi, py_lshift.
  assert ((i <? 0) = false) as Hf by lia.
  destruct b; cbn; rewrite Hf; cbn; rewrite Z.shiftl_1_l; reflexivity.
Qed.

Lemma bit_after_write (a i k : Z) (b : bool) :
  0 <= i -> 0 <= k ->
  Z.testbit (if b then Z.lor a (2 ^ i) else Z.land a (Z.lnot (2 ^ i))) k
  = if k =? i then b else Z.testbit a k.
Proof.
  intros Hi Hk.
  destruct b; rewrite ?Z.lor_spec, ?Z.land_spec, ?Z.lnot_spec,
    Z.pow2_bits_eqb by assumption; rewrite (Z.eqb_sym i k);
    destruct (k =? i), (Z.testbit a k); reflexivity.
Qed.

(** X17: writing a bit at an index [i >= 0] and reading the bit at
    index [i + shift] agree: [x[i] = b] makes stored bit [i] equal to
    [b] and leaves every other stored bit, the shift and the bounds as
    they were, then validates the bounds; on the instance so changed
    [x[i + shift]] is [b].  A negative index, or a value other than 0
    and 1, ends in a [ValueError] and changes nothing. *)
Theorem bit_write_then_read (x : fixbv) (i : Z) (b : bool) :
  let v := PInt (if b then 1 else 0) in
  let x' := fst (__setitem__ (KIndex i) v x) in
  (if i <? 0
   then __setitem__ (KIndex i) v x = (x, Raise ValueError)
   else snd (__setitem__ (KIndex i) v x) = _handleBounds x'
        /\ getshift x' = getshift x
        /\ getminsi x' = getminsi x /\ getmaxsi x' = getmaxsi x
        /\ (forall k, 0 <= k ->
                      Z.testbit (getsi x') k
                      = if k =? i then b else Z.testbit (getsi x) k)
        /\ __getitem__ x' (KIndex (i + getshift x)) = Ok (Bit b))
  /\ (forall w, w <> 0 -> w <> 1 ->
                __setitem__ (KIndex i) (PInt w) x = (x, Raise ValueError)).
Proof.
  cbv zeta. split.
  - destruct (Z.ltb_spec i 0) as [Hi | Hi].
    + unfold __setitem__, mbind, lift, reading, check_bounds, setsi, py_lshift.
      assert ((i <? 0) = true) as Hf by lia.
      destruct b; cbn; rewrite Hf; reflexivity.
    + rewrite (setitem_index_bit x i b Hi). cbv zeta. cbn [fst snd].
      split; [reflexivity |]. do 3 (split; [reflexivity |]).
      split.
      * intros k Hk. cbn [getsi with_val _val]. fold (getsi x).
        apply bit_after_write; assumption.
      * rewrite getitem_index. cbn [getshift with_val _shift]. fold (getshift x).
        assert ((i + getshift x - getshift x <? 0) = false) as -> by lia.
        do 2 f_equal. cbn [getsi with_val _val]. fold (getsi x).
        replace (i + getshift x - getshift x) with i by lia.
        rewrite bit_after_write, Z.eqb_refl by assumption. reflexivity.
  - intros w H0 H1.
    unfold __setitem__, mbind, lift, reading, check_bounds, setsi.
    cbn [py_int].
    assert ((w =? 1) = false) as -> by lia.
    assert ((w =? 0) = false) as -> by lia.
    reflexivity.
Qed.

Lemma slice_write (x : fixbv) (i j v : Z) :
  0 <= j < i -> - 2 ^ (i - j) <= v < 2 ^ (i - j) ->
  let si' := Z.lor (Z.land (getsi x) (Z.lnot (Z.shiftl (Z.ones (i - j)) j)))
                   (Z.shiftl v j) in
  __setitem__ (KSlice (Some i) (Some j)) (PInt v) x
  = (with_val x si', _handleBounds (with_val x si')).
Proof.
  intros Hij Hv.
  unfold __setitem__, mbind, lift, reading, check_bounds, setsi, py_lshift.
  cbn [py_int].
  assert ((j <? 0) = false) as -> by lia.
  assert ((i <=? j) = false) as -> by lia.
  assert ((i - j <? 0) = false) as -> by lia.
  rewrite Z.shiftl_1_l.
  assert (((v >=? 2 ^ (i - j)) || (v <? - 2 ^ (i - j))) = false) as -> by lia.
  cbn [py_int getsi with_val _val]. fold (getsi x).
  rewrite Z.ones_equiv. unfold Z.pred. reflexivity.
Qed.

Lemma slice_bits (a v i j k : Z) :
  0 <= j < i -> 0 <= k ->
  Z.testbit (Z.lor (Z.land a (Z.lnot (Z.shiftl (Z.ones (i - j)) j)))
                   (Z.shiftl v j)) k
  = if k <? j then Z.testbit a k
    else if k <? i then Z.testbit v (k - j)
    else Z.testbit a k || Z.testbit v (k - j).
Proof.
  intros Hij Hk.
  rewrite Z.lor_spec, Z.land_spec, Z.lnot_spec, !Z.shiftl_spec by assumption.
  rewrite Z.testbit_ones by lia.
  destruct (Z.ltb_spec k j), (Z.ltb_spec k i); try lia.
  - rewrite (Z.testbit_neg_r v) by lia.
    assert ((0 <=? k - j) = false) as -> by lia.
    cbn. now rewrite Bool.andb_true_r, Bool.orb_false_r.
  - assert ((0 <=? k - j) = true) as -> by lia.
    assert ((k - j <? i - j) = true) as -> by lia.
    cbn. now rewrite Bool.andb_false_r.
  - assert ((k - j <? i - j) = false) as -> by lia.
    rewrite Bool.andb_false_r. cbn. now rewrite Bool.andb_true_r.
Qed.

(** X18: for [0 <= j < i] and a value [v] that [__setitem__] accepts
    ([-2**(i-j) <= v < 2**(i-j)]), [x[i:j] = v] puts the bits of [v] at
    the stored positions [j] to [i - 1], leaves the stored bits below
    [j] untouched and ors the bits of [v] from position [i - j] upward
    into those at and above [i] (none for [v >= 0], all of them for
    [v < 0]); shift and bounds are kept and the bounds then validated.
    Reading the slice [i + shift : j + shift] of the result gives [v]
    modulo [2**(i-j)] with width [i - j]: the value itself when
    [v >= 0]. *)
Theorem slice_write_then_read (x : fixbv) (i j v : Z) :
  0 <= j < i -> - 2 ^ (i - j) <= v < 2 ^ (i - j) ->
  exists x' : fixbv,
    __setitem__ (KSlice (Some i) (Some j)) (PInt v) x = (x', _handleBounds x')
    /\ getshift x' = getshift x
    /\ getminsi x' = getminsi x /\ getmaxsi x' = getmaxsi x
    /\ (forall k, 0 <= k ->
          Z.testbit (getsi x') k
          = if k <? j then Z.testbit (getsi x) k
            else if k <? i then Z.testbit v (k - j)
            else Z.testbit (getsi x) k || Z.testbit v (k - j))
    /\ __getitem__ x' (KSlice (Some (i + getshift x)) (Some (j + getshift x)))
       = Ok (Bits (v mod 2 ^ (i - j)) (i - j))
    /\ (if 0 <=? v then v mod 2 ^ (i - j) = v else getsi x' < 0).
Proof.
  intros Hij Hv.
  pose proof (slice_write x i j v Hij Hv) as Hw. cbv zeta in Hw.
  eexists. split; [exact Hw |].
  do 3 (split; [reflexivity |]).
  cbn [getsi getshift with_val _val _shift]. fold (getsi x) (getshift x).
  set (si' := Z.lor _ _).
  assert (Hbits : forall k, 0 <= k ->
            Z.testbit si' k
            = if k <? j then Z.testbit (getsi x) k
              else if k <? i then Z.testbit v (k - j)
              else Z.testbit (getsi x) k || Z.testbit v (k - j))
    by (intros k Hk; apply slice_bits; assumption).
  split; [exact Hbits |].
  split.
  - unfold __getitem__, py_lshift, py_rshift.
    cbn [getsi getshift with_val _val _shift]. fold (getshift x).
    replace (i + getshift x - getshift x) with i by lia.
    replace (j + getshift x - getshift x) with j by lia.
    assert ((j <? 0) = false) as -> by lia.
    assert ((i <=? j) = false) as -> by lia.
    assert ((i <? 0) = false) as -> by lia.
    cbn [bind]. do 2 f_equal.
    rewrite Z.shiftl_1_l. change (2 ^ i - 1) with (Z.pred (2 ^ i)).
    rewrite <- Z.ones_equiv.
    apply Z.bits_inj'. intros k Hk.
    rewrite Z.shiftr_spec, Z.land_spec, Z.testbit_ones by lia.
    rewrite Z.testbit_mod_pow2, Hbits by lia.
    replace (k + j - j) with k by lia.
    destruct (Z.ltb_spec (k + j) j), (Z.ltb_spec (k + j) i),
      (Z.ltb_spec k (i - j)), (Z.leb_spec 0 (k + j)); try lia;
      cbn; rewrite ?Bool.andb_true_r, ?Bool.andb_false_r; reflexivity.
  - destruct (Z.leb_spec 0 v) as [Hp | Hn].
    + apply Z.mod_small. lia.
    + apply Z.bits_iff_neg_ex.
      exists (Z.max i (Z.log2 (Z.abs v) + j + 1)). intros m Hm. rewrite Hbits by lia.
      assert ((m <? j) = false) as -> by lia.
      assert ((m <? i) = false) as -> by lia.
      assert (Htv : Z.testbit v (m - j) = true).
      { apply Z.bits_iff_neg; lia. }
      rewrite Htv. apply Bool.orb_true_r.
Qed.

End Indexing.

Section Instances.

Context {FM : FloatModel}.

(** X19: the constructor on integers.  Without bounds it always returns
    the instance with the given stored integer and shift; with both
    bounds it ends in an [AssertionError] unless [min < max], then in
    the range error unless [min <= val < max], and otherwise returns the
    instance with the four fields as given; with only one of the two
    bounds it ends in an [AssertionError]. *)
Theorem constructor_on_integers (v s lo hi : Z) (asfloat : asfloat_arg) :
  let '(f0, f1, f2) := flags_of asfloat in
  __init__ (PInt v) s None None asfloat
  = Ok (mkfixbv v s None None f0 f1 f2)
  /\ __init__ (PInt v) s (Some (PInt lo)) (Some (PInt hi)) asfloat
     = (if lo <? hi
        then if (lo <=? v) && (v <? hi)
             then Ok (mkfixbv v s (Some lo) (Some hi) f0 f1 f2)
             else Raise RangeError
        else Raise AssertionError)
  /\ __init__ (PInt v) s (Some (PInt lo)) None asfloat = Raise AssertionError
  /\ __init__ (PInt v) s None (Some (PInt hi)) asfloat = Raise AssertionError.
Proof.
  destruct asfloat as [b | b0 b1 b2]; cbn [flags_of];
    (split; [reflexivity |]); (split; [| split; reflexivity]);
    unfold __init__; cbn;
    (destruct (lo <? hi); [| reflexivity]); cbn;
    unfold _handleBounds; cbn;
    destruct (Z.leb_spec lo v), (Z.ltb_spec v hi);
    cbn;
    try (assert ((lo >? v) = false) as -> by lia);
    try (assert ((lo >? v) = true) as -> by lia);
    try (assert ((v >=? hi) = false) as -> by lia);
    try (assert ((v >=? hi) = true) as -> by lia);
    reflexivity.
Qed.

Lemma init_integers (v s lo hi : Z) :
  __init__ (PInt v) s (Some (PInt lo)) (Some (PInt hi)) (AFlag false)
  = if lo <? hi
    then if (lo <=? v) && (v <? hi)
         then Ok (bounded_fixbv v s lo hi)
         else Raise RangeError
    else Raise AssertionError.
Proof.
  unfold __init__; cbn.
  destruct (lo <? hi); [| reflexivity]. cbn.
  unfold _handleBounds; cbn.
  destruct (Z.leb_spec lo v), (Z.ltb_spec v hi); cbn;
    try (assert ((lo >? v) = false) as -> by lia);
    try (assert ((lo >? v) = true) as -> by lia);
    try (assert ((v >=? hi) = false) as -> by lia);
    try (assert ((v >=? hi) = true) as -> by lia);
    reflexivity.
Qed.

(** X20: [__copy__] and [__deepcopy__] go through the constructor, so a
    copy is validated again and loses the [asfloat] flags: an instance
    without bounds, or with both bounds and a stored integer inside
    them, is copied field by field; one whose stored integer has been
    moved outside its bounds (through the setters) cannot be copied, the
    attempt ends in the range error; one with a single bound, or with
    [min >= max], ends in an [AssertionError]. *)
Theorem copy_validates_again {A : Type} (x : fixbv) (memo : A) :
  __copy__ x
  = match getminsi x, getmaxsi x with
    | None, None => Ok (plain_fixbv (getsi x) (getshift x))
    | Some lo, Some hi =>
        if lo <? hi
        then if (lo <=? getsi x) && (getsi x <? hi)
             then Ok (bounded_fixbv (getsi x) (getshift x) lo hi)
             else Raise RangeError
        else Raise AssertionError
    | _, _ => Raise AssertionError
    end
  /\ __deepcopy__ x memo = __copy__ x.
Proof.
  split; [| reflexivity].
  unfold __copy__.
  destruct (getminsi x) as [lo |], (getmaxsi x) as [hi |]; cbn [option_map];
    try reflexivity.
  apply init_integers.
Qed.

(** ** Bitwise complement and iteration *)

Lemma lnot_lnot_ones (a n : Z) :
  0 <= n -> 0 <= Z.land (Z.lnot a) (Z.ones n) < 2 ^ n.
Proof.
  intros Hn. rewrite Z.land_ones by assumption.
  apply Z.mod_pos_bound. apply Z.pow_pos_nonneg; lia.
Qed.

(** X21: [~x] never keeps the shift or the bounds of [x]: an instance it
    returns has shift 0 and no bounds.  On an instance without bounds it
    returns the stored integer [-si - 1], and applied twice the stored
    integer of [x] again, on the grid of shift 0.  On an instance with a
    lower bound [>= 0] and a bit width [n > 0] it returns the complement
    within [n] bits, a stored integer from 0 up to [2**n - 1]. *)
Theorem invert_forgets_the_grid (x : fixbv) (si sh : Z) (f0 f1 f2 : bool) :
  let u := mkfixbv si sh None None f0 f1 f2 in
  match __invert__ x with
  | Ok r => getshift r = 0 /\ unbounded r
  | Raise _ => True
  end
  /\ __invert__ u = Ok (plain_fixbv (- si - 1) 0)
  /\ (r <- __invert__ u ;; __invert__ r) = Ok (plain_fixbv si 0)
  /\ match getnrbits x, getminsi x with
     | Ok n, Some lo =>
         if (0 <? n) && (0 <=? lo)
         then exists c : Z,
                __invert__ x = Ok (plain_fixbv c 0)
                /\ c = Z.land (Z.lnot (getsi x)) (Z.ones n)
                /\ 0 <= c < 2 ^ n
         else True
     | _, _ => True
     end.
Proof.
  cbv zeta. split; [| split; [| split]].
  - unfold __invert__.
    destruct (getnrbits x) as [n | e]; cbn [bind]; [| exact I].
    destruct (if n =? 0 then _ else _) as [[|] | e]; cbn [bind]; [| | exact I].
    + destruct (py_lshift 1 n) as [one | e]; cbn [bind]; [| exact I].
      rewrite fixbv_new_int. split; [reflexivity | split; reflexivity].
    + rewrite fixbv_new_int. split; [reflexivity | split; reflexivity].
  - unfold __invert__. cbn. unfold plain_fixbv. do 2 f_equal;
      try (unfold Z.lnot; lia).
  - unfold __invert__. cbn. unfold plain_fixbv. do 2 f_equal;
      try apply Z.lnot_involutive.
  - destruct (getnrbits x) as [n | e] eqn:En; [| exact I].
    destruct (getminsi x) as [lo |] eqn:Elo; [| exact I].
    destruct (Z.ltb_spec 0 n) as [Hn | Hn]; [| exact I].
    destruct (Z.leb_spec 0 lo) as [Hlo | Hlo]; [| exact I].
    cbn [andb].
    eexists. split; [| split; [reflexivity | apply lnot_lnot_ones; lia]].
    unfold __invert__. rewrite En. cbn [bind]. rewrite Elo.
    assert ((n =? 0) = false) as -> by lia.
    assert ((lo >=? 0) = true) as -> by lia.
    cbn [bind]. unfold py_lshift.
    assert ((n <? 0) = false) as -> by lia.
    cbn [bind]. rewrite fixbv_new_int, Z.shiftl_1_l.
    change (2 ^ n - 1) with (Z.pred (2 ^ n)). rewrite <- Z.ones_equiv.
    reflexivity.
Qed.

Lemma comprehension_total {A B : Type} (f : A -> result B) (g : A -> B)
      (l : list A) :
  (forall a, In a l -> f a = Ok (g a)) ->
  comprehension f l = Ok (map g l).
Proof.
  induction l as [| a l IH]; intros H; cbn; [reflexivity |].
  rewrite H by (left; reflexivity). cbn.
  rewrite IH by (intros b Hb; apply H; right; exact Hb).
  reflexivity.
Qed.

Lemma range_down_bounds (n i : Z) : In i (range_down n) -> 0 <= i < n.
Proof.
  unfold range_down. rewrite in_map_iff.
  intros (k & <- & Hk). apply in_seq in Hk. lia.
Qed.

(** X22: iterating over an instance whose bit width is 0 (no bounds)
    ends in a [TypeError]; with a bit width [n] other than 0 the
    iteration yields the stored bits [n - 1] down to 0, most significant
    first, as booleans, [n] of them when [n > 0]: the shift of the
    instance plays no part. *)
Theorem iter_yields_stored_bits (x : fixbv) :
  match getnrbits x with
  | Ok n =>
      if n =? 0 then __iter__ x = Raise TypeError
      else __iter__ x
           = Ok (map (fun i => Bit (Z.testbit (getsi x) i)) (range_down n))
           /\ List.length (range_down n) = Z.to_nat n
  | Raise e => __iter__ x = Raise e
  end.
Proof.
  unfold __iter__.
  destruct (getnrbits x) as [n | e]; cbn [bind]; [| reflexivity].
  destruct (n =? 0); [reflexivity |].
  split.
  - apply comprehension_total. intros i Hi.
    apply range_down_bounds in Hi.
    rewrite getitem_index.
    replace (i + getshift x - getshift x) with i by lia.
    assert ((i <? 0) = false) as -> by lia. reflexivity.
  - unfold range_down. now rewrite length_map, length_seq.
Qed.

(** ** Operands that are not instances *)

(** X23: an operand that is not an instance is first made one with
    shift 0 through [int()]: for each of [+], [-], [*], [//], [%] an
    integer [n], or a string that reads as [n], gives exactly what the
    instance [fixbv(n, 0)] gives; a string that is no number ends in a
    [ValueError] and an object [int()] rejects in a [TypeError].  [**]
    takes an integer the same way but rejects every string. *)
Theorem operands_are_coerced (op : binop) (x : fixbv) (n : Z) :
  binary op x (PInt n) = binary op x (PFixbv (plain_fixbv n 0))
  /\ binary op x (PStr (Some n))
     = match op with
       | Pow => Raise TypeError
       | _ => binary op x (PFixbv (plain_fixbv n 0))
       end
  /\ binary op x (PStr None)
     = match op with Pow => Raise TypeError | _ => Raise ValueError end
  /\ binary op x PObj = Raise TypeError.
Proof.
  destruct op; cbn [binary]; repeat split; try reflexivity.
  unfold __pow__. cbn. rewrite Z.mul_1_r. reflexivity.
Qed.

End Instances.

(** ** Instances of the properties that have premises *)

Lemma inplace_shift_round_trip_at_5_3 :
  unbounded (plain_fixbv 5 0) /\ 0 <= 3
  /\ (_ <~ @__ilshift__ exact_floats (PInt 3) ;; @__irshift__ exact_floats (PInt 3))
       (plain_fixbv 5 0)
     = (plain_fixbv 5 0, Ok tt)
  /\ (_ <~ @__irshift__ exact_floats (PInt 3) ;; @__ilshift__ exact_floats (PInt 3))
       (plain_fixbv 13 0)
     = (plain_fixbv 8 0, Ok tt).
Proof.
  assert (Hu : forall v, unbounded (plain_fixbv v 0)) by (intros v; split; reflexivity).
  assert (H3 : 0 <= 3) by discriminate.
  split; [apply Hu |]. split; [exact H3 |].
  split.
  - exact (proj1 (@inplace_shift_round_trip exact_floats (plain_fixbv 5 0) 3 (Hu 5) H3)).
  - exact (proj2 (@inplace_shift_round_trip exact_floats (plain_fixbv 13 0) 3 (Hu 13) H3)).
Defined.

Lemma slice_write_then_read_at_bounded :
  0 <= 1 < 4 /\ - 2 ^ (4 - 1) <= 5 < 2 ^ (4 - 1)
  /\ exists x' : fixbv,
       @__setitem__ exact_floats (KSlice (Some 4) (Some 1)) (PInt 5)
                    (bounded_fixbv 1 2 0 16)
       = (x', _handleBounds x')
       /\ getsi x' = 11
       /\ __getitem__ x' (KSlice (Some (4 + 2)) (Some (1 + 2)))
          = Ok (Bits 5 3).
Proof.
  assert (H1 : 0 <= 1 < 4) by (split; [discriminate | reflexivity]).
  assert (H2 : - 2 ^ (4 - 1) <= 5 < 2 ^ (4 - 1)) by (split; [discriminate | reflexivity]).
  split; [exact H1 |]. split; [exact H2 |].
  destruct (@slice_write_then_read exact_floats (bounded_fixbv 1 2 0 16) 4 1 5 H1 H2)
    as (x' & Hw & _ & _ & _ & _ & Hr & _).
  exists x'. split; [exact Hw |]. split; [| exact Hr].
  apply (f_equal fst) in Hw. cbn in Hw. rewrite <- Hw. reflexivity.
Defined.

